(** * CommandTree workspace fixture scripts

    A shallow embedding of the three Python scripts that the CommandTree
    test workspace ships,

      - [src/test/fixtures/workspace/scripts/deploy.py]
      - [test-fixtures/workspace/scripts/build_project.py]
      - [test-fixtures/workspace/scripts/run_tests.py]

    together with the part of CPython 3.11's [argparse] that
    [run_tests.py] drives.  A script is a computation over an explicit
    [World] (the two console streams and the file system); exceptions and
    [SystemExit] are results of the computation. *)

From Stdlib Require Import ZArith Ascii String List Bool Lia.
From stdpp Require Import base option list strings pretty gmap.

Local Open Scope string_scope.
Local Open Scope Z_scope.

(** ** The world a script runs in *)

(** Python [str] values are modelled as [string] (sequences of 8-bit
    characters); [sys.argv] is a [list string].  The file system maps a
    path to the contents of the file stored there. *)
Record World := mkWorld {
  stdout : string;
  stderr : string;
  filesystem : gmap string string
}.

Definition write_stdout (text : string) (w : World) : World :=
  mkWorld (stdout w +:+ text) (stderr w) (filesystem w).

Definition write_stderr (text : string) (w : World) : World :=
  mkWorld (stdout w) (stderr w +:+ text) (filesystem w).

(** ** Computations that may raise *)

Inductive Exception :=
| IndexError
| AttributeError
| SystemExit (status : Z).

Inductive Result (A : Type) :=
| Returned (a : A)
| Raised (e : Exception).
Arguments Returned {A} a.
Arguments Raised {A} e.

Definition Py (A : Type) : Type := World -> Result A * World.

Global Instance Py_ret : MRet Py := fun A (a : A) w => (Returned a, w).

Global Instance Py_bind : MBind Py := fun A B (k : A -> Py B) (m : Py A) w =>
  match m w with
  | (Returned a, w') => k a w'
  | (Raised e, w') => (Raised e, w')
  end.

Definition raise {A} (e : Exception) : Py A := fun w => (Raised e, w).

(** [print(text)]: the text and a newline go to standard output. *)
Definition newline : string := String (ascii_of_nat 10) "".

Definition print (text : string) : Py unit :=
  fun w => (Returned tt, write_stdout (text +:+ newline) w).

(** [seq[i]] on a list: [IndexError] when [i] is out of range. *)
Definition getitem (seq : list string) (i : nat) : Py string :=
  match seq !! i with
  | Some x => mret x
  | None => raise IndexError
  end.

(** [len(seq)]. *)
Definition len (seq : list string) : Z := Z.of_nat (length seq).

(** Running a script as a process: the exit status is 0 when the script
    runs to its end, the status carried by [SystemExit], and 1 for any
    other exception that reaches the top level. *)
Definition exit_status {A} (r : Result A) : Z :=
  match r with
  | Returned _ => 0
  | Raised (SystemExit status) => status
  | Raised IndexError | Raised AttributeError => 1
  end.

Definition run {A} (script : Py A) (w : World) : Z * World :=
  let (r, w') := script w in (exit_status r, w').

(** ** deploy.py *)

Module deploy.

(** The body of [if __name__ == "__main__":]. *)
Definition main (sys_argv : list string) : Py unit :=
  env ← (if 1 <? len sys_argv then getitem sys_argv 1 else mret "staging");
  print ("Deploying to " +:+ env).

End deploy.

(** ** build_project.py *)

Module build_project.

Definition main (sys_argv : list string) : Py unit :=
  config ← (if 1 <? len sys_argv then getitem sys_argv 1 else mret "debug");
  output ← (if 2 <? len sys_argv then getitem sys_argv 2 else mret "dist");
  print ("Building with config=" +:+ config +:+ ", output=" +:+ output).

End build_project.

(** ** String operations used by argparse *)

(** [c in s] for a one-character [c]. *)
Fixpoint char_in (c : ascii) (s : string) : bool :=
  match s with
  | "" => false
  | String c' s' => Ascii.eqb c c' || char_in c s'
  end.

(** [s.split(c, 1)] when [c] occurs in [s]: the text before the first [c]
    and the text after it. *)
Fixpoint split_once (c : ascii) (s : string) : string * string :=
  match s with
  | "" => ("", "")
  | String c' s' =>
      if Ascii.eqb c c' then ("", s')
      else let (before, after) := split_once c s' in (String c' before, after)
  end.

(** [s.startswith(prefix)]. *)
Definition startswith (s prefix : string) : bool := String.prefix prefix s.

(** [s.lstrip(chars)]. *)
Fixpoint lstrip (chars : string) (s : string) : string :=
  match s with
  | "" => ""
  | String c s' => if char_in c chars then lstrip chars s' else s
  end.

(** [s.replace(old, new)] for one-character [old] and [new]. *)
Fixpoint replace_char (old new : ascii) (s : string) : string :=
  match s with
  | "" => ""
  | String c s' => String (if Ascii.eqb c old then new else c) (replace_char old new s')
  end.

(** [sep.join(parts)]. *)
Definition join (sep : string) (parts : list string) : string :=
  String.concat sep parts.

(** [os.path.basename(p)] (posixpath): the text after the last slash. *)
Fixpoint basename (p : string) : string :=
  match p with
  | "" => ""
  | String c p' => if char_in "/" p' then basename p' else if Ascii.eqb c "/" then p' else p
  end.

Definition is_digit (c : ascii) : bool :=
  ((48 <=? nat_of_ascii c) && (nat_of_ascii c <=? 57))%nat.

(** The text left after a maximal run of digits ([\d*]). *)
Fixpoint skip_digits (s : string) : string :=
  match s with
  | String c s' => if is_digit c then skip_digits s' else s
  | "" => ""
  end.

(** [\d+] followed by [$]: at least one digit, then the end of the text
    or a final newline. *)
Definition digits_then_end (s : string) : bool :=
  match s with
  | String c s' =>
      is_digit c &&
      (String.eqb (skip_digits s') "" || String.eqb (skip_digits s') newline)
  | "" => false
  end.

(** [re.compile(r'^-\d+$|^-\d*\.\d+$').match(s)]. *)
Definition _negative_number_matcher (s : string) : bool :=
  match s with
  | String "-" s' =>
      digits_then_end s' ||
      match skip_digits s' with
      | String "." frac => digits_then_end frac
      | _ => false
      end
  | _ => false
  end.

(** ** argparse (CPython 3.11), as far as run_tests.py drives it

    The parser of run_tests.py has no positional arguments, no
    mutually-exclusive groups, no [fromfile_prefix_chars], and only
    actions with [nargs=None] (store) or [nargs=0] (help); the branches of
    [_parse_known_args] that serve the other features are left out. *)

Module argparse.

(** A value stored in the namespace. *)
Inductive Value :=
| PyNone
| PyStr (s : string)
| PyList (items : list string).

Inductive ActionClass := _StoreAction | _HelpAction.

(** [default = None] stands for [argparse.SUPPRESS]; [nargs = None] is
    Python's [nargs=None] (exactly one argument). *)
Record Action := mkAction {
  option_strings : list string;
  dest : string;
  nargs : option nat;
  default : option Value;
  help : string;
  class : ActionClass
}.

Record ArgumentParser := mkParser {
  prog : string;
  description : string;
  prefix_chars : string;
  _actions : list Action;
  _option_string_actions : list (string * Action)
}.

(** The texts this model takes from the Python runtime as they come:
    the usage and help messages that [HelpFormatter] lays out for a
    parser (they depend on the width of the terminal), and the built-in
    [repr] of a string. *)
Record Texts := mkTexts {
  format_usage : ArgumentParser -> string;
  format_help : ArgumentParser -> string;
  repr : string -> string
}.

Abbreviation Namespace := (gmap string Value).

(** [option_string in self._option_string_actions] and the lookup. *)
Fixpoint lookup_option (table : list (string * Action)) (option_string : string)
  : option Action :=
  match table with
  | [] => None
  | (key, action) :: table' =>
      if String.eqb option_string key then Some action
      else lookup_option table' option_string
  end.

(** [_get_optional_kwargs]: the destination is the first long option
    string, or else the first option string, without its leading prefix
    characters and with dashes turned into underscores. *)
Definition is_long_option (chars : string) (option_string : string) : bool :=
  match option_string with
  | String _ (String c1 _) => char_in c1 chars
  | _ => false
  end.

Definition infer_dest (chars : string) (option_strings : list string) : string :=
  let dest_option_string :=
    match filter (fun o => is_long_option chars o = true) option_strings with
    | long :: _ => long
    | [] => hd "" option_strings
    end in
  replace_char "-" "_" (lstrip chars dest_option_string).

Definition register (parser : ArgumentParser) (action : Action) : ArgumentParser :=
  mkParser (prog parser) (description parser) (prefix_chars parser)
    (_actions parser ++ [action])
    (_option_string_actions parser ++
       map (fun o => (o, action)) (option_strings action)).

(** [parser.add_argument(option_string, help=help)]: a store action
    with the default [None]. *)
Definition add_argument (parser : ArgumentParser) (option_strings : list string)
    (help : string) : ArgumentParser :=
  register parser
    (mkAction option_strings (infer_dest (prefix_chars parser) option_strings)
       None (Some PyNone) help _StoreAction).

(** [ArgumentParser(description=description)]: the program name is the
    base name of [sys.argv[0]], and [add_help=True] registers the help
    action under [-h] and [--help], with [default=SUPPRESS]. *)
Definition new_parser (sys_argv : list string) (description : string)
  : Py ArgumentParser :=
  argv0 ← getitem sys_argv 0;
  mret (register (mkParser (basename argv0) description "-" [] [])
          (mkAction ["-h"; "--help"] "help" (Some 0%nat) None
             "show this help message and exit" _HelpAction)).

(** *** Classifying the argument strings *)

(** [(action, option_string, explicit_arg)]. *)
Definition OptionTuple : Type := option Action * string * option string.

(** [_get_option_tuples]; the left result is the message passed to
    [self.error]. *)
Definition _get_option_tuples (parser : ArgumentParser) (option_string : string)
  : string + list OptionTuple :=
  let chars := prefix_chars parser in
  match option_string with
  | String c0 (String c1 short_explicit_arg) =>
      if char_in c0 chars && char_in c1 chars then
        let (option_prefix, explicit_arg) :=
          if char_in "=" option_string
          then (let (p, e) := split_once "=" option_string in (p, Some e))
          else (option_string, None) in
        inr (omap (fun '(o, action) =>
                     if startswith o option_prefix
                     then Some (Some action, o, explicit_arg) else None)
               (_option_string_actions parser))
      else if char_in c0 chars && negb (char_in c1 chars) then
        let option_prefix := option_string in
        let short_option_prefix := String c0 (String c1 "") in
        inr (omap (fun '(o, action) =>
                     if String.eqb o short_option_prefix
                     then Some (Some action, o, Some short_explicit_arg)
                     else if startswith o option_prefix
                     then Some (Some action, o, None) else None)
               (_option_string_actions parser))
      else inl ("unexpected option string: " +:+ option_string)
  | _ => inl ("unexpected option string: " +:+ option_string)
  end.

Definition _has_negative_number_optionals (parser : ArgumentParser) : bool :=
  existsb (fun '(o, _) => _negative_number_matcher o) (_option_string_actions parser).

(** [_parse_optional]: [inr None] for a string meant to be positional,
    [inr (Some t)] for an option, [inl message] for [self.error(message)]. *)
Definition _parse_optional (parser : ArgumentParser) (arg_string : string)
  : string + option OptionTuple :=
  match arg_string with
  | "" => inr None
  | String c0 _ =>
      if negb (char_in c0 (prefix_chars parser)) then inr None else
      match lookup_option (_option_string_actions parser) arg_string with
      | Some action => inr (Some (Some action, arg_string, None))
      | None =>
          if (String.length arg_string =? 1)%nat then inr None else
          let before_eq :=
            if char_in "=" arg_string then
              let (option_string, explicit_arg) := split_once "=" arg_string in
              match lookup_option (_option_string_actions parser) option_string with
              | Some action => Some (Some action, option_string, Some explicit_arg)
              | None => None
              end
            else None in
          match before_eq with
          | Some t => inr (Some t)
          | None =>
              match _get_option_tuples parser arg_string with
              | inl message => inl message
              | inr [] =>
                  if _negative_number_matcher arg_string
                     && negb (_has_negative_number_optionals parser)
                  then inr None
                  else if char_in " " arg_string then inr None
                  else inr (Some (None, arg_string, None))
              | inr [option_tuple] => inr (Some option_tuple)
              | inr option_tuples =>
                  inl ("ambiguous option: " +:+ arg_string +:+ " could match " +:+
                       join ", " (map (fun t : OptionTuple => t.1.2) option_tuples))
              end
          end
      end
  end.

(** One character of [arg_strings_pattern]: ['A'], ['O'] (with the
    option tuple noted at that index) or ['-']. *)
Inductive Pattern :=
| A
| O (option_tuple : OptionTuple)
| DoubleDash.

Fixpoint classify (parser : ArgumentParser) (arg_strings : list string)
  : string + list Pattern :=
  match arg_strings with
  | [] => inr []
  | arg_string :: rest =>
      if String.eqb arg_string "--" then inr (DoubleDash :: map (fun _ => A) rest)
      else
        match _parse_optional parser arg_string with
        | inl message => inl message
        | inr option_tuple =>
            match classify parser rest with
            | inl message => inl message
            | inr pattern =>
                inr (match option_tuple with None => A | Some t => O t end :: pattern)
            end
        end
  end.

(** *** Matching an option with the strings that follow it *)

(** [_get_action_name] and [str(ArgumentError(action, message))]. *)
Definition _get_action_name (action : Action) : string :=
  match option_strings action with
  | [] => dest action
  | names => join "/" names
  end.

Definition ArgumentError (action : Action) (message : string) : string :=
  "argument " +:+ _get_action_name action +:+ ": " +:+ message.

Definition is_A (p : Pattern) : bool :=
  match p with A => true | _ => false end.

(** [_match_argument]: for an optional action the pattern of
    [_get_nargs_pattern] is [(A)] when [nargs] is [None] and [n] times
    [A] in a group when it is a number; the match is at the start of
    [arg_strings_pattern].  The left result is the message of the
    [ArgumentError] raised. *)
Definition _match_argument (action : Action) (arg_strings_pattern : list Pattern)
  : string + nat :=
  match nargs action with
  | None =>
      match arg_strings_pattern with
      | A :: _ => inr 1%nat
      | _ => inl "expected one argument"
      end
  | Some n =>
      if (length (take n arg_strings_pattern) =? n)%nat
         && forallb is_A (take n arg_strings_pattern)
      then inr n
      else inl (if (n =? 1)%nat then "expected 1 argument"
                else "expected " +:+ pretty n +:+ " arguments")
  end.

(** [(action, args, option_string)]. *)
Definition ActionTuple : Type := Action * list string * string.

Section consume_optional.
Context (texts : Texts) (parser : ArgumentParser).
(** The strings after [start_index] and their pattern. *)
Context (following : list string) (selected_patterns : list Pattern).

(** The last round of the [while True] loop of [consume_optional]: no
    explicit argument, the option takes its arguments from the strings
    that follow.  The result is the action tuple and [arg_count]. *)
Definition match_following (action : Action) (option_string : string)
  : string + (list ActionTuple * nat) :=
  match _match_argument action selected_patterns with
  | inl message => inl (ArgumentError action message)
  | inr arg_count => inr ([(action, take arg_count following, option_string)], arg_count)
  end.

(** The rounds of that loop with an explicit argument.  A single-dash
    option without arguments hands the rest of the string to the
    option named by its next character ([-xyz] is [-x -y -z]). *)
Fixpoint match_explicit (action : Action) (option_string explicit_arg : string)
  : string + (list ActionTuple * nat) :=
  let ignored :=
    inl (ArgumentError action ("ignored explicit argument " +:+ repr texts explicit_arg)) in
  match _match_argument action [A] with
  | inl message => inl (ArgumentError action message)
  | inr arg_count =>
      match option_string, explicit_arg with
      | String o0 (String o1 _), String e0 new_explicit_arg =>
          if (arg_count =? 0)%nat && negb (char_in o1 (prefix_chars parser)) then
            let option_string' := String o0 (String e0 "") in
            match lookup_option (_option_string_actions parser) option_string' with
            | Some action' =>
                match
                  (if String.eqb new_explicit_arg ""
                   then match_following action' option_string'
                   else match_explicit action' option_string' new_explicit_arg)
                with
                | inl message => inl message
                | inr (action_tuples, arg_count') =>
                    inr ((action, [], option_string) :: action_tuples, arg_count')
                end
            | None => ignored
            end
          else if (arg_count =? 1)%nat
          then inr ([(action, [explicit_arg], option_string)], 0%nat)
          else ignored
      | _, _ =>
          if (arg_count =? 1)%nat
          then inr ([(action, [explicit_arg], option_string)], 0%nat)
          else ignored
      end
  end.

(** The tuples collected for the option at [start_index] and the
    number of following strings they use; [inr None] when the string
    names no option of this parser and goes to the extras. *)
Definition collect_action_tuples (option_tuple : OptionTuple)
  : string + option (list ActionTuple * nat) :=
  match option_tuple with
  | (None, _, _) => inr None
  | (Some action, option_string, Some explicit_arg) =>
      sum_map id Some (match_explicit action option_string explicit_arg)
  | (Some action, option_string, None) =>
      sum_map id Some (match_following action option_string)
  end.
End consume_optional.

(** *** Taking the actions *)

(** [list.remove(x)] without the [ValueError]: the first occurrence of
    [x] goes. *)
Fixpoint remove_first (x : string) (l : list string) : list string :=
  match l with
  | [] => []
  | y :: l' => if String.eqb y x then l' else y :: remove_first x l'
  end.

(** [_get_values] for [nargs] equal to [None] or a number, without
    [type] and [choices]. *)
Definition _get_values (action : Action) (arg_strings : list string) : Value :=
  match remove_first "--" arg_strings, nargs action with
  | [arg_string], None => PyStr arg_string
  | arg_strings', _ => PyList arg_strings'
  end.

(** [take_action] over the collected tuples, in order.  A store action
    sets its destination; the help action prints the help and exits,
    which is the result [None]. *)
Fixpoint take_actions (action_tuples : list ActionTuple) (namespace : Namespace)
  : option Namespace :=
  match action_tuples with
  | [] => Some namespace
  | (action, args, _) :: action_tuples' =>
      match class action with
      | _StoreAction =>
          take_actions action_tuples' (<[dest action := _get_values action args]> namespace)
      | _HelpAction => None
      end
  end.

(** *** The parsing loop *)

Inductive Outcome :=
| Parsed (namespace : Namespace) (extras : list string)
| HelpExit
| ErrorExit (message : string).

(** The [while] loop of [_parse_known_args] and the two statements
    after it, over the strings from [start_index] on, each with its
    pattern character.  [skip] counts the strings at the front that the
    last option has taken as its arguments.  With no positional action,
    [consume_positionals] takes nothing, and a string that is no option
    goes to the extras. *)
Fixpoint consume (texts : Texts) (parser : ArgumentParser)
    (strings : list (string * Pattern)) (skip : nat)
    (namespace : Namespace) (extras : list string) : Outcome :=
  match strings with
  | [] => Parsed namespace extras
  | (arg_string, p) :: rest =>
      match skip with
      | S skip' => consume texts parser rest skip' namespace extras
      | 0%nat =>
          match p with
          | O option_tuple =>
              match collect_action_tuples texts parser rest.*1 rest.*2 option_tuple with
              | inl message => ErrorExit message
              | inr None => consume texts parser rest 0 namespace (extras ++ [arg_string])
              | inr (Some (action_tuples, arg_count)) =>
                  match take_actions action_tuples namespace with
                  | None => HelpExit
                  | Some namespace' => consume texts parser rest arg_count namespace' extras
                  end
              end
          | _ => consume texts parser rest 0 namespace (extras ++ [arg_string])
          end
      end
  end.

Definition _parse_known_args (texts : Texts) (parser : ArgumentParser)
    (arg_strings : list string) (namespace : Namespace) : Outcome :=
  match classify parser arg_strings with
  | inl message => ErrorExit message
  | inr arg_strings_pattern =>
      consume texts parser (zip arg_strings arg_strings_pattern) 0 namespace []
  end.

(** The namespace [parse_known_args] starts from: every destination
    with a default that is not [SUPPRESS]. *)
Definition default_namespace (parser : ArgumentParser) : Namespace :=
  foldl (fun namespace action =>
           match default action, namespace !! dest action with
           | Some value, None => <[dest action := value]> namespace
           | _, _ => namespace
           end) ∅ (_actions parser).

(** [_print_message(message, file)] writes a message that is not empty. *)
Definition _print_message (message : string) (file : string -> World -> World)
  : Py unit :=
  fun w => (Returned tt, if String.eqb message "" then w else file message w).

(** [parser.exit(status, message)]. *)
Definition exit {X} (status : Z) (message : string) : Py X :=
  _print_message message write_stderr;; raise (SystemExit status).

(** [parser.error(message)]. *)
Definition error {X} (texts : Texts) (parser : ArgumentParser) (message : string) : Py X :=
  _print_message (format_usage texts parser) write_stderr;;
  exit 2 (prog parser +:+ ": error: " +:+ message +:+ newline).

(** [parser.parse_args()], reading [sys.argv[1:]]. *)
Definition parse_args (texts : Texts) (parser : ArgumentParser) (sys_argv : list string)
  : Py Namespace :=
  match _parse_known_args texts parser (drop 1 sys_argv) (default_namespace parser) with
  | Parsed namespace [] => mret namespace
  | Parsed _ argv => error texts parser ("unrecognized arguments: " +:+ join " " argv)
  | HelpExit => _print_message (format_help texts parser) write_stdout;; exit 0 ""
  | ErrorExit message => error texts parser message
  end.

(** [getattr(namespace, name)]. *)
Definition getattr (namespace : Namespace) (name : string) : Py Value :=
  match namespace !! name with
  | Some value => mret value
  | None => raise AttributeError
  end.

(** [str(value)], as an f-string formats a value. *)
Definition str (texts : Texts) (value : Value) : string :=
  match value with
  | PyNone => "None"
  | PyStr s => s
  | PyList items => "[" +:+ join ", " (map (repr texts) items) +:+ "]"
  end.

(** [arg_string] is read as an option string of the action whose
    destination is [dest_] (in full, abbreviated, or with [=value]). *)
Definition selects (parser : ArgumentParser) (dest_ : string) (arg_string : string) : bool :=
  match _parse_optional parser arg_string with
  | inr (Some (Some action, _, _)) => String.eqb (dest action) dest_
  | _ => false
  end.

End argparse.

(** ** run_tests.py *)

Module run_tests.
Import argparse.

Definition main (texts : Texts) (sys_argv : list string) : Py unit :=
  parser ← new_parser sys_argv "Run tests";
  let parser := add_argument parser ["--verbose"] "Enable verbose output" in
  let parser := add_argument parser ["--filter"] "Filter tests by pattern" in
  args ← parse_args texts parser sys_argv;
  verbose ← getattr args "verbose";
  filter ← getattr args "filter";
  print ("Running tests: verbose=" +:+ str texts verbose +:+
         ", filter=" +:+ str texts filter).

(** The parser that [main] has built when it calls [parse_args], for
    the program name [prog]. *)
Definition parser (prog : string) : ArgumentParser :=
  Eval cbv in
    add_argument
      (add_argument
         (register (mkParser prog "Run tests" "-" [] [])
            (mkAction ["-h"; "--help"] "help" (Some 0%nat) None
               "show this help message and exit" _HelpAction))
         ["--verbose"] "Enable verbose output")
      ["--filter"] "Filter tests by pattern".

(** No argument string of the command line selects the flag stored
    under [dest].  (The program name plays no part in this.) *)
Definition flag_absent (dest : string) (args : list string) : Prop :=
  Forall (fun arg_string => selects (parser "") dest arg_string = false) args.

End run_tests.

(** ** Vocabulary of the properties *)

(** The state of the world after [parser.error(message)]: the usage and
    the error line are on standard error. *)
Definition after_error (texts : argparse.Texts) (parser : argparse.ArgumentParser)
    (message : string) (w : World) : World :=
  write_stderr (argparse.prog parser +:+ ": error: " +:+ message +:+ newline)
    (if String.eqb (argparse.format_usage texts parser) "" then w
     else write_stderr (argparse.format_usage texts parser) w).

Definition begins_with_dash (s : string) : bool :=
  match s with
  | String c _ => Ascii.eqb c "-"
  | "" => false
  end.

(** No newline character occurs in [s]. *)
Definition newline_free (s : string) : bool := negb (char_in (ascii_of_nat 10) s).

(** The number of newline characters in [s]: the lines of a text that
    ends with a newline. *)
Fixpoint count_lines (s : string) : nat :=
  match s with
  | "" => 0
  | String c s' => ((if Ascii.eqb c (ascii_of_nat 10) then 1 else 0) + count_lines s')%nat
  end.

(** [new] is [old] with some text written after it. *)
Definition extends (old new : string) : Prop := exists text, new = old +:+ text.

(** From [w] to [w'] nothing but a write to standard output has happened. *)
Definition stdout_only (w w' : World) : Prop :=
  filesystem w' = filesystem w /\ stderr w' = stderr w /\ extends (stdout w) (stdout w').

(** From [w] to [w'] nothing but writes to the console have happened. *)
Definition console_only (w w' : World) : Prop :=
  filesystem w' = filesystem w /\ extends (stderr w) (stderr w') /\
  extends (stdout w) (stdout w').

Definition set_filesystem (files : gmap string string) (w : World) : World :=
  mkWorld (stdout w) (stderr w) files.

(** The script reads nothing from the file system: on another file
    system it does the same and leaves that one as it is. *)
Definition ignores_filesystem {X} (script : Py X) : Prop :=
  forall (w : World) (files : gmap string string),
    run script (set_filesystem files w)
    = let (status, w') := run script w in (status, set_filesystem files w').

(** [result] is a run of run_tests.py that argparse has ended: with the
    help on standard output and status 0, or with a usage error on
    standard error and status 2.  The line of the script is not printed. *)
Definition argparse_exit (texts : argparse.Texts) (prog : string) (w : World)
    (result : Z * World) : Prop :=
  let parser := run_tests.parser prog in
  result = (0, if String.eqb (argparse.format_help texts parser) "" then w
               else write_stdout (argparse.format_help texts parser) w)
  \/ exists message, result = (2, after_error texts parser message w).

(** What the invariants of the parsing loop ask of an action tuple and
    of an option tuple: [Good] holds of the action, [Fine] of the strings
    handed to it, and an action with [nargs=None] gets at most one. *)
Definition good_tuple (Good : argparse.Action -> Prop) (Fine : string -> Prop)
    (t : argparse.ActionTuple) : Prop :=
  Good t.1.1 /\ Forall Fine t.1.2 /\
  (argparse.nargs t.1.1 = None -> (length t.1.2 <= 1)%nat).

Definition good_option (Good : argparse.Action -> Prop) (Fine : string -> Prop)
    (option_tuple : argparse.OptionTuple) : Prop :=
  (forall action, option_tuple.1.1 = Some action -> Good action) /\
  (forall explicit_arg, option_tuple.2 = Some explicit_arg -> Fine explicit_arg).

(** The option tuples of an argument string name actions of the parser,
    and [Fine] holds of their explicit arguments. *)
Definition from_parser (parser : argparse.ArgumentParser) (Fine : string -> Prop)
    (option_tuple : argparse.OptionTuple) : Prop :=
  (forall action, option_tuple.1.1 = Some action ->
     action ∈ (argparse._option_string_actions parser).*2) /\
  (forall explicit_arg, option_tuple.2 = Some explicit_arg -> Fine explicit_arg).

(** *** Command lines made of flag settings *)

(** The two flags of run_tests.py, the option string each was added
    under, and the store action behind it. *)
Inductive Flag := Verbose | Filter.

Definition flag_option (flag : Flag) : string :=
  match flag with Verbose => "--verbose" | Filter => "--filter" end.

Definition flag_dest (flag : Flag) : string :=
  match flag with Verbose => "verbose" | Filter => "filter" end.

Definition flag_action (flag : Flag) : argparse.Action :=
  match flag with
  | Verbose =>
      argparse.mkAction ["--verbose"] "verbose" None (Some argparse.PyNone)
        "Enable verbose output" argparse._StoreAction
  | Filter =>
      argparse.mkAction ["--filter"] "filter" None (Some argparse.PyNone)
        "Filter tests by pattern" argparse._StoreAction
  end.

Definition same_flag (f g : Flag) : bool :=
  match f, g with
  | Verbose, Verbose | Filter, Filter => true
  | _, _ => false
  end.

(** [spelling] spells the flag: the option string or a beginning of it
    that has the two dashes and at least one letter. *)
Definition spells (flag : Flag) (spelling : string) : bool :=
  startswith (flag_option flag) spelling && (3 <=? String.length spelling)%nat.

(** One setting of a flag on the command line: the spelling and the
    value as two argument strings, or [spelling=value] as one. *)
Inductive Setting :=
| Separate (flag : Flag) (spelling value : string)
| Joined (flag : Flag) (spelling value : string).

Definition setting_flag (setting : Setting) : Flag :=
  match setting with Separate flag _ _ | Joined flag _ _ => flag end.

Definition setting_value (setting : Setting) : string :=
  match setting with Separate _ _ value | Joined _ _ value => value end.

Definition setting_strings (setting : Setting) : list string :=
  match setting with
  | Separate _ spelling value => [spelling; value]
  | Joined _ spelling value => [spelling +:+ "=" +:+ value]
  end.

(** A separate value must not begin with a dash; a joined value may be
    any string but [--]. *)
Definition well_formed (setting : Setting) : bool :=
  match setting with
  | Separate flag spelling value => spells flag spelling && negb (begins_with_dash value)
  | Joined flag spelling value => spells flag spelling && negb (String.eqb value "--")
  end.

Definition command_line (settings : list Setting) : list string :=
  flat_map setting_strings settings.

(** The value of the last setting of [flag], if there is one. *)
Fixpoint last_value (flag : Flag) (settings : list Setting) : option string :=
  match settings with
  | [] => None
  | setting :: settings' =>
      match last_value flag settings' with
      | Some value => Some value
      | None =>
          if same_flag (setting_flag setting) flag then Some (setting_value setting)
          else None
      end
  end.

(** How the line shows a flag: its last value, or [None]. *)
Definition shown (value : option string) : string := default "None" value.

(** The argument strings of a setting with their pattern characters, and
    what the setting stores. *)
Definition setting_pattern (setting : Setting) : list (string * argparse.Pattern) :=
  match setting with
  | Separate flag spelling value =>
      [(spelling, argparse.O (Some (flag_action flag), flag_option flag, None));
       (value, argparse.A)]
  | Joined flag spelling value =>
      [(spelling +:+ "=" +:+ value,
        argparse.O (Some (flag_action flag), flag_option flag, Some value))]
  end.

Definition store_setting (namespace : gmap string argparse.Value) (setting : Setting)
  : gmap string argparse.Value :=
  <[flag_dest (setting_flag setting) := argparse.PyStr (setting_value setting)]> namespace.

(** The parser of run_tests.py finds no option in [s], and [s] is not
    the [--] separator: [s] is read as a positional argument or as an
    option the parser does not have. *)
Definition names_no_option (s : string) : bool :=
  negb (String.eqb s "--") &&
  match argparse._parse_optional (run_tests.parser "") s with
  | inr None | inr (Some (None, _, _)) => true
  | _ => false
  end.

(** To run the scripts on examples: a console and an empty file system,
    and the texts of an 80-column terminal for a short program name (with
    [repr] as it is on printable ASCII text without quotes or
    backslashes). *)
Definition fresh : World := mkWorld "" "" ∅.

Definition sample_texts : argparse.Texts :=
  argparse.mkTexts
    (fun parser => "usage: " +:+ argparse.prog parser +:+
                   " [-h] [--verbose VERBOSE] [--filter FILTER]" +:+ newline)
    (fun parser => "usage: " +:+ argparse.prog parser +:+
                   " [-h] [--verbose VERBOSE] [--filter FILTER]" +:+ newline +:+
                   newline +:+ argparse.description parser +:+ newline +:+
                   newline +:+ "options:" +:+ newline +:+
                   "  -h, --help         show this help message and exit" +:+ newline +:+
                   "  --verbose VERBOSE  Enable verbose output" +:+ newline +:+
                   "  --filter FILTER    Filter tests by pattern" +:+ newline)
    (fun s => "'" +:+ s +:+ "'").

(** * Properties *)

(** ** Positional arguments with defaults *)

Lemma append_assoc (s1 s2 s3 : string) : (s1 +:+ s2) +:+ s3 = s1 +:+ (s2 +:+ s3).
Proof.
  induction s1 as [|c s1 IH]; [reflexivity|].
  change (String c ((s1 +:+ s2) +:+ s3) = String c (s1 +:+ (s2 +:+ s3))).
  now rewrite IH.
Qed.

Lemma getitem_or_default (seq : list string) (i : nat) (d : string) :
  (if Z.of_nat i <? len seq then getitem seq i else mret d)
  = mret (default d (seq !! i)).
Proof.
  unfold len, getitem.
  destruct (seq !! i) as [x|] eqn:Hi.
  - apply lookup_lt_Some in Hi.
    destruct (Z.ltb_spec (Z.of_nat i) (Z.of_nat (length seq))); [reflexivity | lia].
  - apply lookup_ge_None in Hi.
    destruct (Z.ltb_spec (Z.of_nat i) (Z.of_nat (length seq))); [lia | reflexivity].
Qed.

Lemma deploy_run (sys_argv : list string) (w : World) :
  run (deploy.main sys_argv) w
  = (0, write_stdout ("Deploying to " +:+ default "staging" (sys_argv !! 1%nat) +:+ newline) w).
Proof.
  unfold deploy.main.
  pose proof (getitem_or_default sys_argv 1 "staging") as H1.
  change (Z.of_nat 1) with 1 in H1. rewrite H1.
  reflexivity.
Qed.

Lemma build_project_run (sys_argv : list string) (w : World) :
  run (build_project.main sys_argv) w
  = (0, write_stdout ("Building with config=" +:+ default "debug" (sys_argv !! 1%nat) +:+
                      ", output=" +:+ default "dist" (sys_argv !! 2%nat) +:+ newline) w).
Proof.
  unfold build_project.main.
  pose proof (getitem_or_default sys_argv 1 "debug") as H1.
  pose proof (getitem_or_default sys_argv 2 "dist") as H2.
  change (Z.of_nat 1) with 1 in H1. change (Z.of_nat 2) with 2 in H2.
  rewrite H1, H2.
  unfold run, print, write_stdout, mbind, Py_bind, mret, Py_ret. cbn [exit_status stdout].
  now rewrite !append_assoc.
Qed.

(** ** run_tests.py: from the parse to the process *)

Section run_tests_facts.
Import argparse.
Context (texts : Texts).

Lemma main_parser (script : string) (args : list string) :
  run_tests.main texts (script :: args)
  = (namespace ← parse_args texts (run_tests.parser (basename script)) (script :: args);
     verbose ← getattr namespace "verbose";
     filter ← getattr namespace "filter";
     print ("Running tests: verbose=" +:+ str texts verbose +:+
            ", filter=" +:+ str texts filter)).
Proof. reflexivity. Qed.

Lemma default_namespace_parser (prog : string) :
  default_namespace (run_tests.parser prog)
  = <["filter" := PyNone]> (<["verbose" := PyNone]> ∅).
Proof. reflexivity. Qed.

Lemma nonempty_error_line (p message : string) :
  String.eqb (p +:+ ": error: " +:+ message +:+ newline) "" = false.
Proof. destruct p; reflexivity. Qed.

Lemma run_error {X} (parser : ArgumentParser) (message : string) (w : World) :
  run (@error X texts parser message) w = (2, after_error texts parser message w).
Proof.
  unfold run, error, exit, _print_message, raise, mbind, Py_bind, after_error.
  rewrite nonempty_error_line. reflexivity.
Qed.

Lemma run_main (script : string) (args : list string) (w : World) :
  let parser := run_tests.parser (basename script) in
  run (run_tests.main texts (script :: args)) w
  = match _parse_known_args texts parser args (default_namespace parser) with
    | Parsed namespace [] =>
        match namespace !! "verbose", namespace !! "filter" with
        | Some verbose, Some filter =>
            (0, write_stdout ("Running tests: verbose=" +:+ str texts verbose +:+
                              ", filter=" +:+ str texts filter +:+ newline) w)
        | _, _ => (1, w)
        end
    | Parsed _ argv =>
        (2, after_error texts parser ("unrecognized arguments: " +:+ join " " argv) w)
    | HelpExit =>
        (0, if String.eqb (format_help texts parser) "" then w
            else write_stdout (format_help texts parser) w)
    | ErrorExit message => (2, after_error texts parser message w)
    end.
Proof.
  intros parser. rewrite main_parser. fold parser.
  unfold parse_args. change (drop 1 (script :: args)) with args.
  destruct (_parse_known_args texts parser args (default_namespace parser))
    as [namespace [|extra extras]| |message].
  - unfold run, getattr, mbind, Py_bind, mret, Py_ret, print, raise.
    destruct (namespace !! "verbose") as [verbose|];
      destruct (namespace !! "filter") as [filter|]; try reflexivity.
    cbn [exit_status]. now rewrite !append_assoc.
  - pose proof (@run_error (Namespace) parser
      ("unrecognized arguments: " +:+ join " " (extra :: extras)) w) as He.
    unfold run in *. unfold mbind, Py_bind.
    destruct (error texts parser _ w) as [[ns|e] w']; cbn in *; congruence.
  - reflexivity.
  - pose proof (@run_error (Namespace) parser message w) as He.
    unfold run in *. unfold mbind, Py_bind.
    destruct (error texts parser _ w) as [[ns|e] w']; cbn in *; congruence.
Qed.
End run_tests_facts.

(** ** Invariants of the parsing loop *)

Section parsing_invariants.
Import argparse.
Context (texts : Texts) (parser : ArgumentParser).

(** [Good] holds of the actions the loop may take, [Fine] of the
    strings it may hand to them, [Inv] of the namespaces it may reach. *)
Context (Good : Action -> Prop) (Fine : string -> Prop) (Inv : Namespace -> Prop).
Hypothesis Fine_tail : forall (c : ascii) (s : string), Fine (String c s) -> Fine s.
Hypothesis Good_short : forall (c0 c : ascii) (action : Action),
  lookup_option (_option_string_actions parser) (String c0 (String c "")) = Some action ->
  Good action.
Hypothesis Inv_store : forall (action : Action) (args : list string) (namespace : Namespace),
  class action = _StoreAction ->
  Good action -> Forall Fine args ->
  (nargs action = None -> (length args <= 1)%nat) ->
  Inv namespace ->
  Inv (<[dest action := _get_values action args]> namespace).

Lemma good_tuple_no_args action option_string :
  Good action -> good_tuple Good Fine (action, [], option_string).
Proof. intros Hgood. repeat split; [exact Hgood|constructor|cbn; lia]. Qed.

Lemma good_tuple_one_arg action arg option_string :
  Good action -> Fine arg -> good_tuple Good Fine (action, [arg], option_string).
Proof. intros Hgood Hfine. repeat split; [exact Hgood|now repeat constructor|cbn; lia]. Qed.

Lemma match_following_good following selected_patterns action option_string tuples n :
  Forall Fine following ->
  Good action ->
  match_following following selected_patterns action option_string = inr (tuples, n) ->
  Forall (good_tuple Good Fine) tuples.
Proof.
  unfold match_following. intros Hfine Hgood Heq.
  destruct (_match_argument action selected_patterns) as [|arg_count] eqn:Hm;
    simplify_eq.
  apply Forall_singleton. split; [exact Hgood|]. split; cbn.
  - now apply Forall_take.
  - intros Hnargs. rewrite length_take.
    unfold _match_argument in Hm. rewrite Hnargs in Hm.
    repeat case_match; simplify_eq; lia.
Qed.

Lemma match_explicit_good following selected_patterns explicit_arg :
  forall action option_string tuples n,
  Forall Fine following ->
  Good action -> Fine explicit_arg ->
  match_explicit texts parser following selected_patterns action option_string explicit_arg
    = inr (tuples, n) ->
  Forall (good_tuple Good Fine) tuples.
Proof.
  induction explicit_arg as [|e0 rest IH];
    intros action option_string tuples n Hfollowing Hgood Hfine Heq.
  - cbn in Heq. destruct (_match_argument action [A]) as [|arg_count]; [discriminate|].
    destruct option_string as [|o0 [|o1 ?]];
      destruct (arg_count =? 1)%nat; simplify_eq;
      apply Forall_singleton; now apply good_tuple_one_arg.
  - cbn [match_explicit] in Heq.
    destruct (_match_argument action [A]) as [|arg_count]; [discriminate|].
    destruct option_string as [|o0 [|o1 os]].
    1,2: destruct (arg_count =? 1)%nat; simplify_eq;
      apply Forall_singleton; now apply good_tuple_one_arg.
    destruct ((arg_count =? 0)%nat && negb (char_in o1 (prefix_chars parser))).
    + destruct (lookup_option _ (String o0 (String e0 ""))) as [action'|] eqn:Hlook;
        [|discriminate].
      apply Good_short in Hlook.
      destruct (String.eqb rest "").
      * destruct (match_following _ _ action' _) as [|[tuples' n']] eqn:Hfollow;
          simplify_eq.
        constructor; [now apply good_tuple_no_args|].
        eapply match_following_good; eassumption.
      * destruct (match_explicit _ _ _ _ action' _ rest) as [|[tuples' n']] eqn:Hrest;
          simplify_eq.
        constructor; [now apply good_tuple_no_args|].
        eapply IH; eauto.
    + destruct (arg_count =? 1)%nat; simplify_eq;
        apply Forall_singleton; now apply good_tuple_one_arg.
Qed.

Lemma collect_action_tuples_good following selected_patterns option_tuple tuples n :
  Forall Fine following ->
  good_option Good Fine option_tuple ->
  collect_action_tuples texts parser following selected_patterns option_tuple
    = inr (Some (tuples, n)) ->
  Forall (good_tuple Good Fine) tuples.
Proof.
  destruct option_tuple as [[[action|] option_string] [explicit_arg|]];
    cbn; intros Hfollowing [Hgood Hfine] Heq; try discriminate.
  - destruct (match_explicit _ _ _ _ _ _ _) as [|[tuples' n']] eqn:He;
      cbn in Heq; simplify_eq.
    eapply match_explicit_good; [exact Hfollowing| | |exact He]; eauto.
  - destruct (match_following _ _ _ _) as [|[tuples' n']] eqn:He;
      cbn in Heq; simplify_eq.
    eapply match_following_good; [exact Hfollowing| |exact He]; eauto.
Qed.

Lemma take_actions_invariant tuples :
  forall namespace namespace',
  Forall (good_tuple Good Fine) tuples ->
  Inv namespace ->
  take_actions tuples namespace = Some namespace' ->
  Inv namespace'.
Proof.
  induction tuples as [|[[action args] option_string] tuples IH];
    intros namespace namespace' Hall Hinv Heq; cbn in Heq.
  - now simplify_eq.
  - inversion Hall as [|? ? (Hgood & Hfine & Hlen) Hall']; subst.
    destruct (class action) eqn:Hclass; [|discriminate].
    eapply IH; [exact Hall'| |exact Heq]. now apply Inv_store.
Qed.

Lemma consume_invariant strings :
  forall skip namespace extras,
  Forall Fine strings.*1 ->
  (forall s option_tuple,
     (s, O option_tuple) ∈ strings -> good_option Good Fine option_tuple) ->
  Inv namespace ->
  match consume texts parser strings skip namespace extras with
  | Parsed namespace' _ => Inv namespace'
  | _ => True
  end.
Proof.
  induction strings as [|[arg_string p] rest IH];
    intros skip namespace extras Hfine Hopts Hinv.
  - exact Hinv.
  - assert (forall s option_tuple,
              (s, O option_tuple) ∈ rest -> good_option Good Fine option_tuple)
      as Hrest by (intros; eapply Hopts; right; eassumption).
    cbn in Hfine. apply Forall_cons in Hfine as [_ Hfine].
    cbn [consume]. destruct skip as [|skip']; [|now apply IH].
    destruct p as [|option_tuple|]; [now apply IH| |now apply IH].
    destruct (collect_action_tuples _ _ _ _ _) as [|[[tuples n]|]] eqn:Hcollect;
      [exact I| |now apply IH].
    destruct (take_actions tuples namespace) as [namespace'|] eqn:Htake; [|exact I].
    apply IH; [exact Hfine|exact Hrest|].
    eapply take_actions_invariant; [|exact Hinv|exact Htake].
    eapply collect_action_tuples_good; [exact Hfine| |exact Hcollect].
    eapply Hopts. left.
Qed.

(** An ['O'] in the pattern carries what [_parse_optional] returned for
    the string at that index. *)
Lemma classify_option arg_strings :
  forall pattern s option_tuple,
  classify parser arg_strings = inr pattern ->
  (s, O option_tuple) ∈ zip arg_strings pattern ->
  s ∈ arg_strings /\ _parse_optional parser s = inr (Some option_tuple).
Proof.
  induction arg_strings as [|arg_string rest IH]; intros pattern s option_tuple Hc Hin.
  - cbn in Hin. inversion Hin.
  - cbn [classify] in Hc. destruct (String.eqb arg_string "--").
    + simplify_eq. cbn in Hin. apply elem_of_cons in Hin as [Hin|Hin]; [discriminate|].
      apply elem_of_zip_r in Hin. apply list_elem_of_fmap in Hin as [? [? _]].
      discriminate.
    + destruct (_parse_optional parser arg_string) as [|found] eqn:Hp; [discriminate|].
      destruct (classify parser rest) as [|pattern'] eqn:Hc'; [discriminate|].
      simplify_eq. cbn in Hin. apply elem_of_cons in Hin as [Hin|Hin].
      * destruct found; simplify_eq. split; [left|exact Hp].
      * destruct (IH _ _ _ eq_refl Hin) as [Hs Hp']. split; [now right|exact Hp'].
Qed.

Lemma classify_length arg_strings :
  forall pattern, classify parser arg_strings = inr pattern ->
  length pattern = length arg_strings.
Proof.
  induction arg_strings as [|arg_string rest IH]; intros pattern Hc; cbn [classify] in Hc.
  - now simplify_eq.
  - destruct (String.eqb arg_string "--").
    + simplify_eq. cbn. now rewrite length_map.
    + destruct (_parse_optional parser arg_string); [discriminate|].
      destruct (classify parser rest) as [|pattern'] eqn:Hc'; [discriminate|].
      simplify_eq. cbn. f_equal. now apply IH.
Qed.

Lemma _parse_known_args_invariant arg_strings namespace :
  Forall Fine arg_strings ->
  (forall s option_tuple,
     s ∈ arg_strings -> _parse_optional parser s = inr (Some option_tuple) ->
     good_option Good Fine option_tuple) ->
  Inv namespace ->
  match _parse_known_args texts parser arg_strings namespace with
  | Parsed namespace' _ => Inv namespace'
  | _ => True
  end.
Proof.
  intros Hfine Hopts Hinv. unfold _parse_known_args.
  destruct (classify parser arg_strings) as [|pattern] eqn:Hc; [exact I|].
  apply consume_invariant; [| |exact Hinv].
  - rewrite fst_zip; [exact Hfine|]. apply classify_length in Hc. lia.
  - intros s option_tuple Hin.
    destruct (classify_option _ _ _ _ Hc Hin) as [Hs Hp]. eapply Hopts; eassumption.
Qed.
Lemma lookup_option_elem table option_string action :
  lookup_option table option_string = Some action -> (option_string, action) ∈ table.
Proof.
  induction table as [|[key action'] table IH]; cbn; [discriminate|].
  destruct (String.eqb_spec option_string key) as [->|_].
  - intros. simplify_eq. left.
  - intros. right. now apply IH.
Qed.

Lemma split_once_fine (c : ascii) (s : string) : Fine s -> Fine (split_once c s).2.
Proof.
  induction s as [|c' s IH]; intros Hfine; cbn; [exact Hfine|].
  destruct (Ascii.eqb c c'); cbn; [now apply Fine_tail in Hfine|].
  destruct (split_once c s) as [before after]. cbn in *.
  apply IH. now apply Fine_tail in Hfine.
Qed.

Lemma _get_option_tuples_from_parser option_string tuples :
  Fine option_string ->
  _get_option_tuples parser option_string = inr tuples ->
  Forall (from_parser parser Fine) tuples.
Proof.
  intros Hfine. unfold _get_option_tuples.
  destruct option_string as [|c0 [|c1 rest]]; try discriminate.
  destruct (char_in c0 (prefix_chars parser) && char_in c1 (prefix_chars parser)).
  - destruct (char_in "=" (String c0 (String c1 rest))) eqn:Heqchar.
    + pose proof (split_once_fine "=" _ Hfine) as Hsplit.
      destruct (split_once "=" (String c0 (String c1 rest))) as [prefix explicit].
      intros Heq. simplify_eq. apply Forall_forall. intros t Ht.
      apply list_elem_of_omap in Ht as [[o action] [Hin Ht]].
      destruct (startswith o prefix); simplify_eq. split; cbn; intros; simplify_eq.
      * apply list_elem_of_fmap. now exists (o, action0).
      * exact Hsplit.
    + intros Heq. simplify_eq. apply Forall_forall. intros t Ht.
      apply list_elem_of_omap in Ht as [[o action] [Hin Ht]].
      destruct (startswith o _); simplify_eq. split; cbn; intros; simplify_eq.
      apply list_elem_of_fmap. now exists (o, action0).
  - destruct (char_in c0 (prefix_chars parser) && negb (char_in c1 (prefix_chars parser)));
      [|discriminate].
    intros Heq. simplify_eq. apply Forall_forall. intros t Ht.
    apply list_elem_of_omap in Ht as [[o action] [Hin Ht]].
    destruct (String.eqb o _); [|destruct (startswith o _)]; simplify_eq;
      split; cbn; intros; simplify_eq;
      try (apply list_elem_of_fmap; now exists (o, action0)).
    now do 2 apply Fine_tail in Hfine.
Qed.

Lemma _parse_optional_from_parser arg_string option_tuple :
  Fine arg_string ->
  _parse_optional parser arg_string = inr (Some option_tuple) ->
  from_parser parser Fine option_tuple.
Proof.
  intros Hfine. unfold _parse_optional.
  destruct arg_string as [|c0 rest]; [discriminate|].
  destruct (negb (char_in c0 (prefix_chars parser))); [discriminate|].
  destruct (lookup_option _ (String c0 rest)) as [action|] eqn:Hlook.
  { intros. simplify_eq. split; cbn; intros; simplify_eq.
    apply lookup_option_elem in Hlook. apply list_elem_of_fmap.
    now exists (String c0 rest, action0). }
  destruct (String.length (String c0 rest) =? 1)%nat; [discriminate|].
  destruct (char_in "=" (String c0 rest)) eqn:Heqchar.
  - pose proof (split_once_fine "=" _ Hfine) as Hsplit.
    destruct (split_once "=" (String c0 rest)) as [option_string explicit_arg].
    destruct (lookup_option _ option_string) as [action|] eqn:Hlook'.
    { intros. simplify_eq. split; cbn; intros; simplify_eq; [|exact Hsplit].
      apply lookup_option_elem in Hlook'. apply list_elem_of_fmap.
      now exists (option_string, action0). }
    destruct (_get_option_tuples parser (String c0 rest)) as [|tuples] eqn:Htuples;
      [discriminate|].
    apply (_get_option_tuples_from_parser _ _ Hfine) in Htuples.
    destruct tuples as [|t [|t' tuples]]; intros; repeat case_match; simplify_eq.
    + split; cbn; intros; simplify_eq.
    + now inversion Htuples.
  - destruct (_get_option_tuples parser (String c0 rest)) as [|tuples] eqn:Htuples;
      [discriminate|].
    apply (_get_option_tuples_from_parser _ _ Hfine) in Htuples.
    destruct tuples as [|t [|t' tuples]]; intros; repeat case_match; simplify_eq.
    + split; cbn; intros; simplify_eq.
    + now inversion Htuples.
Qed.
End parsing_invariants.

(** ** The parser of run_tests.py *)

Lemma newline_free_tail (c : ascii) (s : string) :
  newline_free (String c s) = true -> newline_free s = true.
Proof.
  unfold newline_free. cbn. destruct (Ascii.eqb _ c); [discriminate|]. exact id.
Qed.

Lemma newline_free_app (s1 s2 : string) :
  newline_free (s1 +:+ s2) = newline_free s1 && newline_free s2.
Proof.
  unfold newline_free. induction s1 as [|c s1 IH]; [reflexivity|].
  change (String c s1 +:+ s2) with (String c (s1 +:+ s2)). cbn.
  destruct (Ascii.eqb _ c); [reflexivity|exact IH].
Qed.

Section run_tests_parser.
Import argparse.
Context (texts : Texts).

(** The program name plays no part in the classification. *)
Lemma _parse_optional_prog (prog prog' : string) (arg_string : string) :
  _parse_optional (run_tests.parser prog) arg_string
  = _parse_optional (run_tests.parser prog') arg_string.
Proof. reflexivity. Qed.

(** The only two-character option string of the parser is [-h]. *)
Lemma short_option_is_help (prog : string) (c0 c : ascii) (action : Action) :
  lookup_option (_option_string_actions (run_tests.parser prog)) (String c0 (String c ""))
    = Some action ->
  class action = _HelpAction /\ dest action = "help".
Proof.
  cbn. destruct (Ascii.eqb c0 "-"); cbn; [|discriminate].
  destruct (Ascii.eqb c "h"); cbn; [intros; now simplify_eq|].
  destruct (Ascii.eqb c "-"); cbn; discriminate.
Qed.

(** Every store action of the parser takes exactly one argument. *)
Lemma store_actions_take_one (prog : string) (action : Action) :
  action ∈ (_option_string_actions (run_tests.parser prog)).*2 ->
  class action = _StoreAction -> nargs action = None.
Proof.
  cbn. intros Hin. repeat (apply elem_of_cons in Hin as [->|Hin]); try done.
  inversion Hin.
Qed.

(** Both destinations stay in the namespace: [args.verbose] and
    [args.filter] never raise. *)
Lemma namespace_keys (prog : string) (args : list string) :
  match _parse_known_args texts (run_tests.parser prog) args
          (default_namespace (run_tests.parser prog)) with
  | Parsed namespace _ =>
      is_Some (namespace !! "verbose") /\ is_Some (namespace !! "filter")
  | _ => True
  end.
Proof.
  apply (_parse_known_args_invariant texts (run_tests.parser prog)
           (fun _ => True) (fun _ => True)).
  - done.
  - done.
  - intros action values namespace _ _ _ _ [Hv Hf].
    split; apply lookup_insert_is_Some'; now right.
  - now apply Forall_forall.
  - done.
  - rewrite default_namespace_parser. split; eexists; reflexivity.
Qed.

(** A flag that no argument string selects keeps its default. *)
Lemma absent_flag_keeps_default (dest_ : string) (prog : string) (args : list string) :
  dest_ <> "help" ->
  run_tests.flag_absent dest_ args ->
  match _parse_known_args texts (run_tests.parser prog) args
          (default_namespace (run_tests.parser prog)) with
  | Parsed namespace _ =>
      namespace !! dest_ = default_namespace (run_tests.parser prog) !! dest_
  | _ => True
  end.
Proof.
  intros Hhelp Habsent.
  apply (_parse_known_args_invariant texts (run_tests.parser prog)
           (fun action => dest action <> dest_) (fun _ => True)
           (fun namespace =>
              namespace !! dest_ = default_namespace (run_tests.parser prog) !! dest_)).
  - done.
  - intros c0 c action Hlook. apply short_option_is_help in Hlook as [_ ->]. congruence.
  - intros action values namespace _ Hdest _ _ Hinv. cbv beta in *.
    now rewrite lookup_insert_ne.
  - now apply Forall_forall.
  - intros s option_tuple Hin Hp. split; [|done].
    intros action Haction.
    unfold run_tests.flag_absent in Habsent. rewrite Forall_forall in Habsent.
    specialize (Habsent s Hin). unfold selects in Habsent.
    rewrite (_parse_optional_prog "" prog), Hp in Habsent.
    destruct option_tuple as [[found option_string] explicit_arg]. cbn in Haction.
    subst found. now apply String.eqb_neq in Habsent.
  - reflexivity.
Qed.

(** With no newline in the argument strings there is none in what the
    namespace formats to. *)
Lemma namespace_newline_free (prog : string) (args : list string) :
  Forall (fun s => newline_free s = true) args ->
  match _parse_known_args texts (run_tests.parser prog) args
          (default_namespace (run_tests.parser prog)) with
  | Parsed namespace _ =>
      forall name value, namespace !! name = Some value ->
                         newline_free (str texts value) = true
  | _ => True
  end.
Proof.
  intros Hargs.
  apply (_parse_known_args_invariant texts (run_tests.parser prog)
           (fun action => class action = _StoreAction -> nargs action = None)
           (fun s => newline_free s = true)).
  - exact newline_free_tail.
  - intros c0 c action Hlook. apply short_option_is_help in Hlook as [-> _]. discriminate.
  - intros action values namespace Hclass Hnargs Hvalues Hlen Hinv name value.
    cbv beta in *. specialize (Hnargs Hclass). specialize (Hlen Hnargs).
    destruct (decide (dest action = name)) as [<-|Hne];
      [rewrite lookup_insert_eq|rewrite lookup_insert_ne by done; apply Hinv].
    intros Hvalue. simplify_eq. unfold _get_values. rewrite Hnargs.
    destruct values as [|value [|? ?]]; [reflexivity| |cbn in Hlen; lia].
    cbn. destruct (String.eqb value "--"); [reflexivity|].
    rewrite Forall_singleton in Hvalues. exact Hvalues.
  - exact Hargs.
  - intros s option_tuple Hin Hp.
    rewrite Forall_forall in Hargs.
    apply (_parse_optional_from_parser _ (fun s => newline_free s = true)
             newline_free_tail _ _ (Hargs s Hin)) in Hp as [Hactions Hexplicit].
    split; [|exact Hexplicit].
    intros action Haction. apply (store_actions_take_one prog). now apply Hactions.
  - rewrite default_namespace_parser. intros name value Hlook.
    apply lookup_insert_Some in Hlook as [[_ <-]|[_ Hlook]]; [reflexivity|].
    apply lookup_insert_Some in Hlook as [[_ <-]|[_ Hlook]]; [reflexivity|].
    now rewrite lookup_empty in Hlook.
Qed.

Lemma parse_optional_value (prog : string) (s : string) :
  begins_with_dash s = false ->
  _parse_optional (run_tests.parser prog) s = inr None.
Proof.
  intros H. destruct s as [|c s]; [reflexivity|].
  cbn in H. unfold _parse_optional.
  cbn [run_tests.parser prefix_chars char_in]. now rewrite H.
Qed.

Lemma not_double_dash (s : string) :
  begins_with_dash s = false -> String.eqb s "--" = false.
Proof.
  intros H. destruct s as [|c s]; [reflexivity|].
  cbn in H. cbn. now rewrite H.
Qed.

Lemma _get_values_one (action : Action) (s : string) :
  nargs action = None -> String.eqb s "--" = false ->
  _get_values action [s] = PyStr s.
Proof. intros Hnargs Hs. unfold _get_values. cbn. now rewrite Hs, Hnargs. Qed.

(** [--verbose V --filter F] and [--filter F --verbose V] with values
    that do not begin with a dash. *)
Lemma parse_verbose_filter (prog V F : string) (namespace : Namespace) :
  begins_with_dash V = false -> begins_with_dash F = false ->
  _parse_known_args texts (run_tests.parser prog) ["--verbose"; V; "--filter"; F] namespace
  = Parsed (<["filter" := PyStr F]> (<["verbose" := PyStr V]> namespace)) [].
Proof.
  intros HV HF. unfold _parse_known_args.
  cbn [classify].
  rewrite (not_double_dash V HV), (not_double_dash F HF),
    (parse_optional_value prog V HV), (parse_optional_value prog F HF).
  cbn. rewrite !_get_values_one by (try reflexivity; now apply not_double_dash).
  reflexivity.
Qed.

Lemma parse_filter_verbose (prog V F : string) (namespace : Namespace) :
  begins_with_dash V = false -> begins_with_dash F = false ->
  _parse_known_args texts (run_tests.parser prog) ["--filter"; F; "--verbose"; V] namespace
  = Parsed (<["verbose" := PyStr V]> (<["filter" := PyStr F]> namespace)) [].
Proof.
  intros HV HF. unfold _parse_known_args.
  cbn [classify].
  rewrite (not_double_dash V HV), (not_double_dash F HF),
    (parse_optional_value prog V HV), (parse_optional_value prog F HF).
  cbn. rewrite !_get_values_one by (try reflexivity; now apply not_double_dash).
  reflexivity.
Qed.

Lemma run_verbose_filter (script V F : string) (w : World) :
  begins_with_dash V = false -> begins_with_dash F = false ->
  run (run_tests.main texts [script; "--verbose"; V; "--filter"; F]) w
  = (0, write_stdout ("Running tests: verbose=" +:+ V +:+ ", filter=" +:+ F +:+ newline) w).
Proof.
  intros HV HF. rewrite run_main. cbv zeta.
  rewrite parse_verbose_filter by assumption.
  rewrite lookup_insert_ne by done. rewrite !lookup_insert_eq. reflexivity.
Qed.

Lemma run_filter_verbose (script V F : string) (w : World) :
  begins_with_dash V = false -> begins_with_dash F = false ->
  run (run_tests.main texts [script; "--filter"; F; "--verbose"; V]) w
  = (0, write_stdout ("Running tests: verbose=" +:+ V +:+ ", filter=" +:+ F +:+ newline) w).
Proof.
  intros HV HF. rewrite run_main. cbv zeta.
  rewrite parse_filter_verbose by assumption.
  rewrite lookup_insert_eq. rewrite lookup_insert_ne by done.
  rewrite lookup_insert_eq. reflexivity.
Qed.

Lemma run_only_verbose (script V : string) (w : World) :
  begins_with_dash V = false ->
  run (run_tests.main texts [script; "--verbose"; V]) w
  = (0, write_stdout ("Running tests: verbose=" +:+ V +:+ ", filter=None" +:+ newline) w).
Proof.
  intros HV. rewrite run_main. cbv zeta. unfold _parse_known_args. cbn [classify].
  rewrite (not_double_dash V HV), (parse_optional_value _ V HV).
  cbn. rewrite _get_values_one by (try reflexivity; now apply not_double_dash).
  rewrite lookup_insert_eq. reflexivity.
Qed.

Lemma run_only_filter (script F : string) (w : World) :
  begins_with_dash F = false ->
  run (run_tests.main texts [script; "--filter"; F]) w
  = (0, write_stdout ("Running tests: verbose=None, filter=" +:+ F +:+ newline) w).
Proof.
  intros HF. rewrite run_main. cbv zeta. unfold _parse_known_args. cbn [classify].
  rewrite (not_double_dash F HF), (parse_optional_value _ F HF).
  cbn. rewrite _get_values_one by (try reflexivity; now apply not_double_dash).
  rewrite lookup_insert_eq. reflexivity.
Qed.

Lemma run_no_flags (script : string) (w : World) :
  run (run_tests.main texts [script]) w
  = (0, write_stdout ("Running tests: verbose=None, filter=None" +:+ newline) w).
Proof. rewrite run_main. reflexivity. Qed.
End run_tests_parser.

(** * The claims *)

(** ** deploy.py and build_project.py *)

(** C1: deploy.py prints exactly the line "Deploying to E" (and exits
    with status 0, touching nothing else), where E is the first
    positional argument as it was given, and "staging" when there is no
    positional argument. *)
Theorem deploy_prints_target :
  (forall (script target : string) (rest : list string) (w : World),
     run (deploy.main (script :: target :: rest)) w
     = (0, write_stdout ("Deploying to " +:+ target +:+ newline) w)) /\
  (forall (script : string) (w : World),
     run (deploy.main [script]) w
     = (0, write_stdout ("Deploying to staging" +:+ newline) w)).
Proof. split; intros; rewrite deploy_run; reflexivity. Qed.

(** C2: build_project.py prints exactly the line
    "Building with config=C, output=O", where C is the first positional
    argument if there is one and "debug" otherwise, and O is the second
    positional argument if there is one and "dist" otherwise. *)
Theorem build_project_prints_config_and_output :
  (forall (script config output : string) (rest : list string) (w : World),
     run (build_project.main (script :: config :: output :: rest)) w
     = (0, write_stdout ("Building with config=" +:+ config +:+
                         ", output=" +:+ output +:+ newline) w)) /\
  (forall (script config : string) (w : World),
     run (build_project.main [script; config]) w
     = (0, write_stdout ("Building with config=" +:+ config +:+
                         ", output=dist" +:+ newline) w)) /\
  (forall (script : string) (w : World),
     run (build_project.main [script]) w
     = (0, write_stdout ("Building with config=debug, output=dist" +:+ newline) w)).
Proof. repeat split; intros; rewrite build_project_run; reflexivity. Qed.

(** C9: with exactly one positional argument C, build_project.py prints
    "Building with config=C, output=dist": the default of the second
    argument applies although the first was given. *)
Theorem build_project_single_argument (script config : string) (w : World) :
  run (build_project.main [script; config]) w
  = (0, write_stdout ("Building with config=" +:+ config +:+ ", output=dist" +:+ newline) w).
Proof. rewrite build_project_run. reflexivity. Qed.

(** C8: deploy.py and build_project.py ignore the positional arguments
    after the first (deploy.py) or the first two (build_project.py): two
    argument lists that agree there give the same output and the same
    final state, and both runs end with status 0. *)
Theorem extra_arguments_ignored :
  (forall (script script' : string) (args args' : list string) (w : World),
     take 1 args = take 1 args' ->
     run (deploy.main (script :: args)) w = run (deploy.main (script' :: args')) w /\
     (run (deploy.main (script :: args)) w).1 = 0) /\
  (forall (script script' : string) (args args' : list string) (w : World),
     take 2 args = take 2 args' ->
     run (build_project.main (script :: args)) w
     = run (build_project.main (script' :: args')) w /\
     (run (build_project.main (script :: args)) w).1 = 0).
Proof.
  split; intros script script' args args' w Hagree.
  - rewrite !deploy_run. split; [|reflexivity].
    change ((script :: args) !! 1%nat) with (args !! 0%nat).
    change ((script' :: args') !! 1%nat) with (args' !! 0%nat).
    rewrite <- (lookup_take_lt args 1 0), <- (lookup_take_lt args' 1 0) by lia.
    now rewrite Hagree.
  - rewrite !build_project_run. split; [|reflexivity].
    change ((script :: args) !! 1%nat) with (args !! 0%nat).
    change ((script' :: args') !! 1%nat) with (args' !! 0%nat).
    change ((script :: args) !! 2%nat) with (args !! 1%nat).
    change ((script' :: args') !! 2%nat) with (args' !! 1%nat).
    rewrite <- (lookup_take_lt args 2 0), <- (lookup_take_lt args' 2 0) by lia.
    rewrite <- (lookup_take_lt args 2 1), <- (lookup_take_lt args' 2 1) by lia.
    now rewrite Hagree.
Qed.

Lemma extra_arguments_ignored_witness :
  (take 1 ["prod"; "now"] = take 1 ["prod"; "later"; "please"] /\
   run (deploy.main ["deploy.py"; "prod"; "now"]) fresh
   = run (deploy.main ["./deploy.py"; "prod"; "later"; "please"]) fresh /\
   (run (deploy.main ["deploy.py"; "prod"; "now"]) fresh).1 = 0) /\
  (take 2 ["release"; "out/"; "-j4"] = take 2 ["release"; "out/"] /\
   run (build_project.main ["build_project.py"; "release"; "out/"; "-j4"]) fresh
   = run (build_project.main ["build_project.py"; "release"; "out/"]) fresh /\
   (run (build_project.main ["build_project.py"; "release"; "out/"; "-j4"]) fresh).1 = 0).
Proof.
  split; (split; [reflexivity|]).
  - apply (proj1 extra_arguments_ignored "deploy.py" "./deploy.py"
             ["prod"; "now"] ["prod"; "later"; "please"] fresh).
    reflexivity.
  - apply (proj2 extra_arguments_ignored "build_project.py" "build_project.py"
             ["release"; "out/"; "-j4"] ["release"; "out/"] fresh).
    reflexivity.
Defined.

(** ** run_tests.py *)

(** C3, as the code has it: when the command line is
    [--verbose V --filter F] (in either order) and neither V nor F begins
    with a dash, run_tests.py prints exactly the line
    "Running tests: verbose=V, filter=F", with V and F as they were given,
    and exits with status 0. *)
Theorem run_tests_echoes_flags (texts : argparse.Texts) (script V F : string) (w : World) :
  begins_with_dash V = false -> begins_with_dash F = false ->
  run (run_tests.main texts [script; "--verbose"; V; "--filter"; F]) w
  = (0, write_stdout ("Running tests: verbose=" +:+ V +:+ ", filter=" +:+ F +:+ newline) w) /\
  run (run_tests.main texts [script; "--filter"; F; "--verbose"; V]) w
  = (0, write_stdout ("Running tests: verbose=" +:+ V +:+ ", filter=" +:+ F +:+ newline) w).
Proof.
  intros HV HF. split; [now apply run_verbose_filter|now apply run_filter_verbose].
Qed.

Lemma run_tests_echoes_flags_witness :
  begins_with_dash "true" = false /\ begins_with_dash "foo" = false /\
  run (run_tests.main sample_texts ["run_tests.py"; "--verbose"; "true"; "--filter"; "foo"])
    fresh
  = (0, write_stdout ("Running tests: verbose=true, filter=foo" +:+ newline) fresh).
Proof.
  split; [reflexivity|]. split; [reflexivity|].
  apply (run_tests_echoes_flags sample_texts "run_tests.py" "true" "foo" fresh);
    reflexivity.
Defined.

(** C3 fails as stated: a value that begins with a dash is read as an
    option, so [--verbose -x --filter foo] is a usage error (status 2) and
    the line is not printed. *)
Lemma run_tests_rejects_dash_value :
  let result :=
    run (run_tests.main sample_texts ["run_tests.py"; "--verbose"; "-x"; "--filter"; "foo"])
      fresh in
  result <> (0, write_stdout ("Running tests: verbose=-x, filter=foo" +:+ newline) fresh) /\
  result.1 = 2 /\ stdout result.2 = "" /\
  stderr result.2
  = "usage: run_tests.py [-h] [--verbose VERBOSE] [--filter FILTER]" +:+ newline +:+
    "run_tests.py: error: argument --verbose: expected one argument" +:+ newline.
Proof. vm_compute. repeat split. discriminate. Qed.

(** C4, as the code has it: deploy.py and build_project.py end with
    status 0 on every argument list; run_tests.py ends with status 0 when
    argparse accepts the argument list or prints the help, and with
    status 2 when argparse rejects it (an unrecognized argument, an option
    without its value, an ambiguous abbreviation, ...). *)
Theorem exit_statuses :
  (forall (sys_argv : list string) (w : World), (run (deploy.main sys_argv) w).1 = 0) /\
  (forall (sys_argv : list string) (w : World),
     (run (build_project.main sys_argv) w).1 = 0) /\
  (forall (texts : argparse.Texts) (script : string) (args : list string) (w : World),
     let parser := run_tests.parser (basename script) in
     (run (run_tests.main texts (script :: args)) w).1
     = match argparse._parse_known_args texts parser args
               (argparse.default_namespace parser) with
       | argparse.Parsed _ [] | argparse.HelpExit => 0
       | argparse.Parsed _ (_ :: _) | argparse.ErrorExit _ => 2
       end).
Proof.
  split; [|split].
  - intros. now rewrite deploy_run.
  - intros. now rewrite build_project_run.
  - intros texts script args w parser. rewrite run_main. fold parser.
    pose proof (namespace_keys texts (basename script) args) as Hkeys. fold parser in Hkeys.
    destruct (argparse._parse_known_args texts parser args _)
      as [namespace [|extra extras]| |message]; try reflexivity.
    destruct Hkeys as [[verbose ->] [filter ->]]. reflexivity.
Qed.

(** C4 fails as stated: run_tests.py with an unknown option ends with
    status 2. *)
Lemma run_tests_unknown_option_status_2 :
  (run (run_tests.main sample_texts ["run_tests.py"; "--bogus"]) fresh).1 = 2.
Proof. vm_compute. reflexivity. Qed.

(** C5: when no argument string selects the --verbose flag
    (respectively the --filter flag), nothing is put in its place: the
    namespace keeps Python's [None] there, and the line that run_tests.py
    prints shows "None" in that position.  The only runs without that
    line are those that argparse ends; with just the other flag and a
    value that does not begin with a dash the line is printed. *)
Theorem absent_flag_shows_None
    (texts : argparse.Texts) (script : string) (w : World) :
  (forall args : list string,
     run_tests.flag_absent "verbose" args ->
     (exists filter : string,
        run (run_tests.main texts (script :: args)) w
        = (0, write_stdout ("Running tests: verbose=None, filter=" +:+ filter +:+ newline) w))
     \/ argparse_exit texts (basename script) w
          (run (run_tests.main texts (script :: args)) w)) /\
  (forall args : list string,
     run_tests.flag_absent "filter" args ->
     (exists verbose : string,
        run (run_tests.main texts (script :: args)) w
        = (0, write_stdout ("Running tests: verbose=" +:+ verbose +:+
                            ", filter=None" +:+ newline) w))
     \/ argparse_exit texts (basename script) w
          (run (run_tests.main texts (script :: args)) w)) /\
  (forall F : string,
     begins_with_dash F = false ->
     run (run_tests.main texts [script; "--filter"; F]) w
     = (0, write_stdout ("Running tests: verbose=None, filter=" +:+ F +:+ newline) w)) /\
  (forall V : string,
     begins_with_dash V = false ->
     run (run_tests.main texts [script; "--verbose"; V]) w
     = (0, write_stdout ("Running tests: verbose=" +:+ V +:+ ", filter=None" +:+ newline) w)).
Proof.
  split; [|split; [|split]];
    [| |intros; now apply run_only_filter|intros; now apply run_only_verbose].
  all: intros args Habsent;
    pose proof (namespace_keys texts (basename script) args) as Hkeys;
    eapply (absent_flag_keeps_default texts _ (basename script)) in Habsent;
    try discriminate;
    rewrite run_main; cbv zeta; unfold argparse_exit;
    destruct (argparse._parse_known_args texts _ args _)
      as [namespace [|extra extras]| |message]; eauto;
    destruct Hkeys as [[verbose Hverbose] [filter Hfilter]];
    rewrite Hverbose, Hfilter; rewrite default_namespace_parser in Habsent.
  - rewrite Hverbose in Habsent.
    rewrite lookup_insert_ne, lookup_insert_eq in Habsent by done.
    simplify_eq. left. now exists (argparse.str texts filter).
  - rewrite Hfilter in Habsent. rewrite lookup_insert_eq in Habsent.
    simplify_eq. left. now exists (argparse.str texts verbose).
Qed.

Lemma absent_flag_shows_None_witness :
  (run_tests.flag_absent "verbose" ["--filter"; "unit"] /\
   ((exists filter : string,
       run (run_tests.main sample_texts ["run_tests.py"; "--filter"; "unit"]) fresh
       = (0, write_stdout ("Running tests: verbose=None, filter=" +:+ filter +:+ newline)
               fresh))
    \/ argparse_exit sample_texts (basename "run_tests.py") fresh
         (run (run_tests.main sample_texts ["run_tests.py"; "--filter"; "unit"]) fresh))) /\
  (run_tests.flag_absent "filter" ["--verbose=yes"] /\
   ((exists verbose : string,
       run (run_tests.main sample_texts ["run_tests.py"; "--verbose=yes"]) fresh
       = (0, write_stdout ("Running tests: verbose=" +:+ verbose +:+
                           ", filter=None" +:+ newline) fresh))
    \/ argparse_exit sample_texts (basename "run_tests.py") fresh
         (run (run_tests.main sample_texts ["run_tests.py"; "--verbose=yes"]) fresh))) /\
  (begins_with_dash "unit" = false /\
   run (run_tests.main sample_texts ["run_tests.py"; "--filter"; "unit"]) fresh
   = (0, write_stdout ("Running tests: verbose=None, filter=unit" +:+ newline) fresh)) /\
  (begins_with_dash "yes" = false /\
   run (run_tests.main sample_texts ["run_tests.py"; "--verbose"; "yes"]) fresh
   = (0, write_stdout ("Running tests: verbose=yes, filter=None" +:+ newline) fresh)).
Proof.
  pose proof (absent_flag_shows_None sample_texts "run_tests.py" fresh)
    as (Hverbose & Hfilter & Honly_filter & Honly_verbose).
  split; [|split; [|split]]; (split; [repeat constructor|]).
  - apply (Hverbose ["--filter"; "unit"]). repeat constructor.
  - apply (Hfilter ["--verbose=yes"]). repeat constructor.
  - apply (Honly_filter "unit"). reflexivity.
  - apply (Honly_verbose "yes"). reflexivity.
Defined.

(** C10: the output of run_tests.py does not determine its arguments.  An
    absent flag is shown as "None", so the empty argument list and
    [--verbose None --filter None] both give the line
    "Running tests: verbose=None, filter=None". *)
Theorem run_tests_not_injective (texts : argparse.Texts) (script : string) (w : World) :
  ([] : list string) <> ["--verbose"; "None"; "--filter"; "None"] /\
  run (run_tests.main texts (script :: [])) w
  = (0, write_stdout ("Running tests: verbose=None, filter=None" +:+ newline) w) /\
  run (run_tests.main texts (script :: ["--verbose"; "None"; "--filter"; "None"])) w
  = (0, write_stdout ("Running tests: verbose=None, filter=None" +:+ newline) w).
Proof.
  split; [discriminate|]. split.
  - apply run_no_flags.
  - now rewrite run_verbose_filter.
Qed.

(** ** One line, and nothing but the console *)

Lemma append_empty_r (s : string) : s +:+ "" = s.
Proof.
  induction s as [|c s IH]; [reflexivity|].
  change (String c (s +:+ "") = String c s). now rewrite IH.
Qed.

Lemma extends_refl (s : string) : extends s s.
Proof. exists "". now rewrite append_empty_r. Qed.

Lemma extends_app (s text : string) : extends s (s +:+ text).
Proof. now exists text. Qed.

Lemma extends_trans (s1 s2 s3 : string) : extends s1 s2 -> extends s2 s3 -> extends s1 s3.
Proof. intros [t1 ->] [t2 ->]. exists (t1 +:+ t2). apply append_assoc. Qed.

Lemma after_error_console (texts : argparse.Texts) (parser : argparse.ArgumentParser)
    (message : string) (w : World) :
  console_only w (after_error texts parser message w).
Proof.
  unfold after_error.
  destruct (String.eqb (argparse.format_usage texts parser) "");
    (split; [reflexivity|split; cbn; [|apply extends_refl]]).
  - apply extends_app.
  - eapply extends_trans; apply extends_app.
Qed.

Lemma argument_newline_free (sys_argv : list string) (i : nat) (d : string) :
  Forall (fun s => newline_free s = true) (drop 1 sys_argv) ->
  newline_free d = true ->
  newline_free (default d (sys_argv !! S i)) = true.
Proof.
  intros Hargs Hd. destruct (sys_argv !! S i) as [x|] eqn:Hx; [|exact Hd].
  rewrite Forall_forall in Hargs. apply Hargs.
  apply list_elem_of_lookup. exists i. now rewrite lookup_drop.
Qed.

(** C6, as the code has it: when no argument contains a newline
    character, deploy.py and build_project.py write exactly one
    newline-terminated line to standard output, and so does run_tests.py
    unless argparse ends the run. *)
Theorem one_line_on_stdout :
  (forall (sys_argv : list string) (w : World),
     Forall (fun s => newline_free s = true) (drop 1 sys_argv) ->
     exists line : string,
       newline_free line = true /\
       run (deploy.main sys_argv) w = (0, write_stdout (line +:+ newline) w)) /\
  (forall (sys_argv : list string) (w : World),
     Forall (fun s => newline_free s = true) (drop 1 sys_argv) ->
     exists line : string,
       newline_free line = true /\
       run (build_project.main sys_argv) w = (0, write_stdout (line +:+ newline) w)) /\
  (forall (texts : argparse.Texts) (script : string) (args : list string) (w : World),
     Forall (fun s => newline_free s = true) args ->
     (exists line : string,
        newline_free line = true /\
        run (run_tests.main texts (script :: args)) w
        = (0, write_stdout (line +:+ newline) w))
     \/ argparse_exit texts (basename script) w
          (run (run_tests.main texts (script :: args)) w)).
Proof.
  split; [|split].
  - intros sys_argv w Hargs.
    exists ("Deploying to " +:+ default "staging" (sys_argv !! 1%nat)). split.
    + rewrite newline_free_app, (argument_newline_free sys_argv 0) by done. reflexivity.
    + rewrite deploy_run. now rewrite append_assoc.
  - intros sys_argv w Hargs.
    exists ("Building with config=" +:+ default "debug" (sys_argv !! 1%nat) +:+
            ", output=" +:+ default "dist" (sys_argv !! 2%nat)). split.
    + rewrite !newline_free_app.
      rewrite (argument_newline_free sys_argv 0), (argument_newline_free sys_argv 1) by done.
      reflexivity.
    + rewrite build_project_run. now rewrite !append_assoc.
  - intros texts script args w Hargs.
    pose proof (namespace_keys texts (basename script) args) as Hkeys.
    pose proof (namespace_newline_free texts (basename script) args Hargs) as Hfree.
    rewrite run_main. cbv zeta. unfold argparse_exit.
    destruct (argparse._parse_known_args texts _ args _)
      as [namespace [|extra extras]| |message]; eauto.
    destruct Hkeys as [[verbose Hverbose] [filter Hfilter]].
    rewrite Hverbose, Hfilter. left.
    exists ("Running tests: verbose=" +:+ argparse.str texts verbose +:+
            ", filter=" +:+ argparse.str texts filter). split.
    + rewrite !newline_free_app.
      rewrite (Hfree _ _ Hverbose), (Hfree _ _ Hfilter). reflexivity.
    + now rewrite !append_assoc.
Qed.

Lemma one_line_on_stdout_witness :
  (Forall (fun s => newline_free s = true) (drop 1 ["deploy.py"; "prod"]) /\
   exists line : string,
     newline_free line = true /\
     run (deploy.main ["deploy.py"; "prod"]) fresh
     = (0, write_stdout (line +:+ newline) fresh)) /\
  (Forall (fun s => newline_free s = true) (drop 1 ["build_project.py"; "release"]) /\
   exists line : string,
     newline_free line = true /\
     run (build_project.main ["build_project.py"; "release"]) fresh
     = (0, write_stdout (line +:+ newline) fresh)) /\
  (Forall (fun s => newline_free s = true) ["--filter"; "unit"] /\
   ((exists line : string,
       newline_free line = true /\
       run (run_tests.main sample_texts ["run_tests.py"; "--filter"; "unit"]) fresh
       = (0, write_stdout (line +:+ newline) fresh))
    \/ argparse_exit sample_texts (basename "run_tests.py") fresh
         (run (run_tests.main sample_texts ["run_tests.py"; "--filter"; "unit"]) fresh))).
Proof.
  split; [|split]; (split; [repeat constructor|]).
  - apply (proj1 one_line_on_stdout ["deploy.py"; "prod"] fresh).
    repeat constructor.
  - apply (proj1 (proj2 one_line_on_stdout) ["build_project.py"; "release"] fresh).
    repeat constructor.
  - apply (proj2 (proj2 one_line_on_stdout) sample_texts "run_tests.py"
             ["--filter"; "unit"] fresh).
    repeat constructor.
Defined.

(** C6 fails as stated: deploy.py echoes a newline inside its argument,
    which makes two lines, and run_tests.py writes nothing to standard
    output when argparse rejects the arguments. *)
Lemma not_always_one_line :
  count_lines
    (stdout (run (deploy.main ["deploy.py"; "a" +:+ newline +:+ "b"]) fresh).2) = 2%nat /\
  count_lines
    (stdout (run (run_tests.main sample_texts ["run_tests.py"; "--bogus"]) fresh).2) = 0%nat.
Proof. split; vm_compute; reflexivity. Qed.

(** C7, as the code has it: the scripts leave the file system as it is
    and read nothing from it; deploy.py and build_project.py do nothing
    but write to standard output, and run_tests.py does nothing but write
    to standard output or, when argparse rejects the arguments, to
    standard error.  A run of run_tests.py that ends with status 0 has
    written to standard output only. *)
Theorem console_effects_only :
  (forall (sys_argv : list string) (w : World),
     stdout_only w (run (deploy.main sys_argv) w).2) /\
  (forall (sys_argv : list string) (w : World),
     stdout_only w (run (build_project.main sys_argv) w).2) /\
  (forall (texts : argparse.Texts) (script : string) (args : list string) (w : World),
     console_only w (run (run_tests.main texts (script :: args)) w).2 /\
     ((run (run_tests.main texts (script :: args)) w).1 = 0 ->
      stdout_only w (run (run_tests.main texts (script :: args)) w).2)) /\
  (forall sys_argv : list string, ignores_filesystem (deploy.main sys_argv)) /\
  (forall sys_argv : list string, ignores_filesystem (build_project.main sys_argv)) /\
  (forall (texts : argparse.Texts) (script : string) (args : list string),
     ignores_filesystem (run_tests.main texts (script :: args))).
Proof.
  repeat apply conj.
  - intros. rewrite deploy_run. repeat split. apply extends_app.
  - intros. rewrite build_project_run. repeat split. apply extends_app.
  - intros texts script args w. rewrite run_main. cbv zeta.
    destruct (argparse._parse_known_args texts _ args _)
      as [namespace [|extra extras]| |message].
    + destruct (namespace !! "verbose"), (namespace !! "filter");
        (split; [|intros]; repeat split; try apply extends_refl; try apply extends_app;
         discriminate).
    + split; [apply after_error_console|discriminate].
    + destruct (String.eqb _ "");
        (split; [|intros]; repeat split; try apply extends_refl; apply extends_app).
    + split; [apply after_error_console|discriminate].
  - intros sys_argv w files. now rewrite !deploy_run.
  - intros sys_argv w files. now rewrite !build_project_run.
  - intros texts script args w files. rewrite !run_main. cbv zeta.
    unfold after_error.
    destruct (argparse._parse_known_args texts _ args _)
      as [namespace [|extra extras]| |message];
      repeat case_match; reflexivity.
Qed.

(** C7 fails as stated: when argparse rejects the arguments, run_tests.py
    writes the usage and the error to standard error. *)
Lemma run_tests_error_writes_stderr :
  ~ stdout_only fresh
      (run (run_tests.main sample_texts ["run_tests.py"; "--bogus"]) fresh).2 /\
  stderr (run (run_tests.main sample_texts ["run_tests.py"; "--bogus"]) fresh).2
  = "usage: run_tests.py [-h] [--verbose VERBOSE] [--filter FILTER]" +:+ newline +:+
    "run_tests.py: error: unrecognized arguments: --bogus" +:+ newline.
Proof.
  split; [|vm_compute; reflexivity].
  intros (_ & Herr & _). vm_compute in Herr. discriminate.
Qed.

Lemma console_effects_only_witness :
  (run (run_tests.main sample_texts ["run_tests.py"; "--filter"; "unit"]) fresh).1 = 0 /\
  stdout_only fresh
    (run (run_tests.main sample_texts ["run_tests.py"; "--filter"; "unit"]) fresh).2.
Proof.
  split; [reflexivity|].
  apply (proj1 (proj2 (proj2 console_effects_only)) sample_texts "run_tests.py"
           ["--filter"; "unit"] fresh).
  reflexivity.
Defined.

(** ** The scenarios of the specification *)

Example scenario_deploy_no_arguments :
  run (deploy.main ["deploy.py"]) fresh
  = (0, mkWorld ("Deploying to staging" +:+ newline) "" ∅).
Proof. reflexivity. Qed.

Example scenario_deploy_prod :
  run (deploy.main ["deploy.py"; "prod"]) fresh
  = (0, mkWorld ("Deploying to prod" +:+ newline) "" ∅).
Proof. reflexivity. Qed.

Example scenario_build_no_arguments :
  run (build_project.main ["build_project.py"]) fresh
  = (0, mkWorld ("Building with config=debug, output=dist" +:+ newline) "" ∅).
Proof. reflexivity. Qed.

Example scenario_build_release :
  run (build_project.main ["build_project.py"; "release"; "out/"]) fresh
  = (0, mkWorld ("Building with config=release, output=out/" +:+ newline) "" ∅).
Proof. reflexivity. Qed.

Example scenario_run_tests :
  run (run_tests.main sample_texts
         ["run_tests.py"; "--verbose"; "true"; "--filter"; "foo"]) fresh
  = (0, mkWorld ("Running tests: verbose=true, filter=foo" +:+ newline) "" ∅).
Proof. vm_compute. reflexivity. Qed.

(** Argument strings that argparse reads in other ways: an abbreviation
    and [=value], a negative number and a string with a space as values,
    the help flag, and an ambiguous abbreviation. *)
Example run_tests_abbreviations :
  run (run_tests.main sample_texts ["run_tests.py"; "--verb=1"; "--f"; "a b"]) fresh
  = (0, mkWorld ("Running tests: verbose=1, filter=a b" +:+ newline) "" ∅).
Proof. vm_compute. reflexivity. Qed.

Example run_tests_negative_number :
  run (run_tests.main sample_texts ["run_tests.py"; "--verbose"; "-1"; "--filter"; "-x y"])
    fresh
  = (0, mkWorld ("Running tests: verbose=-1, filter=-x y" +:+ newline) "" ∅).
Proof. vm_compute. reflexivity. Qed.

Example run_tests_help :
  run (run_tests.main sample_texts ["run_tests.py"; "-h"; "--bogus"]) fresh
  = (0, mkWorld (argparse.format_help sample_texts (run_tests.parser "run_tests.py")) "" ∅).
Proof. vm_compute. reflexivity. Qed.

Example run_tests_ambiguous :
  (run (run_tests.main sample_texts ["run_tests.py"; "--=x"]) fresh).1 = 2.
Proof. vm_compute. reflexivity. Qed.

(** * Further properties of the scripts *)

(** ** Spellings of a flag *)

Lemma prefix_cons_inv (p : string) (c : ascii) (s : string) :
  String.prefix p (String c s) = true ->
  p = "" \/ exists p', p = String c p' /\ String.prefix p' s = true.
Proof.
  destruct p as [|c' p']; [now left|]. cbn.
  destruct (ascii_dec c' c) as [->|]; [|discriminate].
  intros Hp. right. now exists p'.
Qed.

Lemma prefix_empty_inv (p : string) : String.prefix p "" = true -> p = "".
Proof. destruct p; [reflexivity|discriminate]. Qed.

Ltac spellings H :=
  repeat (first
    [ apply prefix_empty_inv in H; subst
    | apply prefix_cons_inv in H as [->|(? & -> & H)] ]).

Section flag_settings.
Import argparse.
Context (texts : Texts) (prog : string).

Lemma parse_optional_spelling (flag : Flag) (spelling : string) :
  spells flag spelling = true ->
  String.eqb spelling "--" = false /\
  _parse_optional (run_tests.parser prog) spelling
  = inr (Some (Some (flag_action flag), flag_option flag, None)).
Proof.
  unfold spells, startswith. intros [Hp Hlen]%andb_prop.
  destruct flag; cbn [flag_option] in Hp; spellings Hp;
    try discriminate Hlen; split; reflexivity.
Qed.

Lemma parse_optional_joined (flag : Flag) (spelling value : string) :
  spells flag spelling = true ->
  String.eqb (spelling +:+ "=" +:+ value) "--" = false /\
  _parse_optional (run_tests.parser prog) (spelling +:+ "=" +:+ value)
  = inr (Some (Some (flag_action flag), flag_option flag, Some value)).
Proof.
  unfold spells, startswith. intros [Hp Hlen]%andb_prop.
  destruct flag; cbn [flag_option] in Hp; spellings Hp;
    try discriminate Hlen; split; reflexivity.
Qed.

Lemma flag_action_facts (flag : Flag) :
  class (flag_action flag) = _StoreAction /\ nargs (flag_action flag) = None /\
  dest (flag_action flag) = flag_dest flag.
Proof. now destruct flag. Qed.

Lemma settings_strings (settings : list Setting) :
  (flat_map setting_pattern settings).*1 = command_line settings.
Proof.
  induction settings as [|[flag spelling value|flag spelling value] settings IH];
    [reflexivity| |]; cbn; now rewrite IH.
Qed.

(** The pattern of a command line that begins with well-formed settings. *)
Lemma classify_settings (settings : list Setting) (rest : list string) :
  Forall (fun setting => well_formed setting = true) settings ->
  classify (run_tests.parser prog) (command_line settings ++ rest)
  = match classify (run_tests.parser prog) rest with
    | inl message => inl message
    | inr pattern => inr ((flat_map setting_pattern settings).*2 ++ pattern)%list
    end.
Proof.
  induction 1 as [|[flag spelling value|flag spelling value] settings Hwf _ IH].
  - cbn. now destruct (classify _ rest).
  - cbn in Hwf. apply andb_prop in Hwf as [Hspells Hvalue].
    apply negb_true_iff in Hvalue.
    destruct (parse_optional_spelling flag spelling Hspells) as [Hdd Hparse].
    cbn [command_line flat_map setting_strings app classify].
    rewrite Hdd, Hparse, (not_double_dash value Hvalue),
      (parse_optional_value prog value Hvalue).
    fold (command_line settings). rewrite IH.
    now destruct (classify _ rest).
  - cbn in Hwf. apply andb_prop in Hwf as [Hspells _].
    destruct (parse_optional_joined flag spelling value Hspells) as [Hdd Hparse].
    cbn [command_line flat_map setting_strings app classify].
    rewrite Hdd, Hparse.
    fold (command_line settings). rewrite IH.
    now destruct (classify _ rest).
Qed.

Lemma zip_settings (settings : list Setting) (rest : list string) (pattern : list Pattern) :
  zip (command_line settings ++ rest)
    ((flat_map setting_pattern settings).*2 ++ pattern)%list
  = (flat_map setting_pattern settings ++ zip rest pattern)%list.
Proof.
  rewrite <- settings_strings.
  rewrite zip_with_app by now rewrite !length_fmap.
  now rewrite zip_fst_snd.
Qed.

(** The parsing loop stores the settings one after the other. *)
Lemma consume_settings (settings : list Setting) :
  forall (more : list (string * Pattern)) (namespace : Namespace) (extras : list string),
  Forall (fun setting => well_formed setting = true) settings ->
  consume texts (run_tests.parser prog) (flat_map setting_pattern settings ++ more) 0
    namespace extras
  = consume texts (run_tests.parser prog) more 0 (foldl store_setting namespace settings)
      extras.
Proof.
  induction settings as [|[flag spelling value|flag spelling value] settings IH];
    intros more namespace extras Hwf; [reflexivity| |];
    apply Forall_cons in Hwf as [Hwf Hrest]; cbn in Hwf;
    apply andb_prop in Hwf as [_ Hvalue]; apply negb_true_iff in Hvalue;
    destruct (flag_action_facts flag) as (Hclass & Hnargs & Hdest).
  - cbn [flat_map setting_pattern app consume collect_action_tuples fmap list_fmap
           match_following sum_map fst snd].
    assert (forall following selected,
              match_following (value :: following) (A :: selected)
                (flag_action flag) (flag_option flag)
              = inr ([(flag_action flag, [value], flag_option flag)], 1%nat)) as ->
      by (intros; now destruct flag).
    cbn [sum_map take_actions id]. rewrite Hclass, Hdest.
    rewrite _get_values_one by (try assumption; now apply not_double_dash).
    now rewrite IH.
  - cbn [flat_map setting_pattern app consume collect_action_tuples].
    assert (forall following selected,
              match_explicit texts (run_tests.parser prog) following selected
                (flag_action flag) (flag_option flag) value
              = inr ([(flag_action flag, [value], flag_option flag)], 0%nat)) as ->
      by (intros; destruct value, flag; reflexivity).
    cbn [sum_map take_actions id]. rewrite Hclass, Hdest.
    rewrite _get_values_one by assumption.
    now rewrite IH.
Qed.

Lemma lookup_foldl_store (flag : Flag) (settings : list Setting) :
  forall namespace : Namespace,
  foldl store_setting namespace settings !! flag_dest flag
  = match last_value flag settings with
    | Some value => Some (PyStr value)
    | None => namespace !! flag_dest flag
    end.
Proof.
  induction settings as [|setting settings IH]; intros namespace; [reflexivity|].
  cbn [foldl last_value]. rewrite IH.
  destruct (last_value flag settings); [reflexivity|].
  unfold store_setting.
  destruct (setting_flag setting), flag; cbn [same_flag flag_dest];
    (rewrite lookup_insert_eq || rewrite lookup_insert_ne by done); reflexivity.
Qed.

(** The outcome of the parse for well-formed settings followed by more
    argument strings. *)
Lemma parse_settings (settings : list Setting) (rest : list string) (namespace : Namespace) :
  Forall (fun setting => well_formed setting = true) settings ->
  _parse_known_args texts (run_tests.parser prog) (command_line settings ++ rest) namespace
  = match classify (run_tests.parser prog) rest with
    | inl message => ErrorExit message
    | inr pattern =>
        consume texts (run_tests.parser prog) (zip rest pattern) 0
          (foldl store_setting namespace settings) []
    end.
Proof.
  intros Hwf. unfold _parse_known_args. rewrite classify_settings by assumption.
  destruct (classify _ rest) as [|pattern]; [reflexivity|].
  rewrite zip_settings. now apply consume_settings.
Qed.
End flag_settings.

(** ** Arguments that are no settings *)

Section stray_arguments.
Import argparse.
Context (texts : Texts) (prog : string).

(** The extras never shrink: once a string is among them, the parse
    cannot end with none. *)
Lemma consume_keeps_extras (strings : list (string * Pattern)) :
  forall (skip : nat) (namespace : Namespace) (extras : list string),
  extras <> [] ->
  match consume texts (run_tests.parser prog) strings skip namespace extras with
  | Parsed _ [] => False
  | _ => True
  end.
Proof.
  induction strings as [|[arg_string p] rest IH]; intros skip namespace extras Hextras.
  - cbn. now destruct extras.
  - cbn [consume]. destruct skip as [|skip']; [|now apply IH].
    assert ((extras ++ [arg_string])%list <> []) as Hmore by now destruct extras.
    destruct p as [|option_tuple|]; [now apply IH| |now apply IH].
    destruct (collect_action_tuples _ _ _ _ _) as [|[[tuples n]|]];
      [exact I| |now apply IH].
    destruct (take_actions tuples namespace); [now apply IH|exact I].
Qed.

(** A string in which the parser finds no option goes to the extras. *)
Lemma classify_no_option (s : string) (rest : list string) :
  names_no_option s = true ->
  classify (run_tests.parser prog) (s :: rest)
  = match classify (run_tests.parser prog) rest with
    | inl message => inl message
    | inr pattern =>
        inr (match _parse_optional (run_tests.parser prog) s with
             | inr (Some t) => O t
             | _ => A
             end :: pattern)
    end
  /\ forall more namespace extras,
       consume texts (run_tests.parser prog)
         ((s, match _parse_optional (run_tests.parser prog) s with
              | inr (Some t) => O t
              | _ => A
              end) :: more) 0 namespace extras
       = consume texts (run_tests.parser prog) more 0 namespace (extras ++ [s]).
Proof.
  unfold names_no_option. intros [Hdd Hparse]%andb_prop.
  apply negb_true_iff in Hdd.
  rewrite (_parse_optional_prog "" prog) in Hparse.
  cbn [classify]. rewrite Hdd.
  destruct (_parse_optional (run_tests.parser prog) s)
    as [|[[[[action|] option_string] explicit_arg]|]]; try discriminate; split;
    try reflexivity; now destruct (classify _ rest).
Qed.
End stray_arguments.

(** ** run_tests.py on command lines of settings *)

(** X1: on a command line made of well-formed settings of the two flags
    (a spelling and a value, or [spelling=value]; full or abbreviated
    spellings; any number, in any order), run_tests.py prints each flag
    with the value of its last setting, "None" for a flag that is not
    set, and exits with status 0. *)
Theorem settings_last_value_wins
    (texts : argparse.Texts) (script : string) (settings : list Setting) (w : World) :
  Forall (fun setting => well_formed setting = true) settings ->
  run (run_tests.main texts (script :: command_line settings)) w
  = (0, write_stdout ("Running tests: verbose=" +:+ shown (last_value Verbose settings) +:+
                      ", filter=" +:+ shown (last_value Filter settings) +:+ newline) w).
Proof.
  intros Hwf. rewrite run_main. cbv zeta.
  rewrite <- (app_nil_r (command_line settings)).
  rewrite parse_settings by assumption. cbn [argparse.classify zip zip_with argparse.consume].
  pose proof (lookup_foldl_store Verbose settings
                (argparse.default_namespace (run_tests.parser (basename script)))) as Hv.
  pose proof (lookup_foldl_store Filter settings
                (argparse.default_namespace (run_tests.parser (basename script)))) as Hf.
  cbn [flag_dest] in Hv, Hf. rewrite Hv, Hf.
  destruct (last_value Verbose settings), (last_value Filter settings); reflexivity.
Qed.

Lemma settings_last_value_wins_witness :
  Forall (fun setting => well_formed setting = true)
    [Separate Verbose "--verbose" "1"; Joined Filter "--fil" "-k slow";
     Separate Verbose "--verb" "2"] /\
  run (run_tests.main sample_texts
         ["run_tests.py"; "--verbose"; "1"; "--fil=-k slow"; "--verb"; "2"]) fresh
  = (0, write_stdout ("Running tests: verbose=2, filter=-k slow" +:+ newline) fresh).
Proof.
  split; [repeat constructor|].
  apply (settings_last_value_wins sample_texts "run_tests.py"
           [Separate Verbose "--verbose" "1"; Joined Filter "--fil" "-k slow";
            Separate Verbose "--verb" "2"] fresh).
  repeat constructor.
Defined.

(** X2: a help flag after well-formed settings ends the run: the status
    line is not printed, whatever follows the help flag; when nothing
    follows it, the help goes to standard output and the status is 0. *)
Theorem help_flag_ends_the_run
    (texts : argparse.Texts) (script : string) (settings : list Setting)
    (help_flag : string) (w : World) :
  Forall (fun setting => well_formed setting = true) settings ->
  help_flag = "-h" \/ help_flag = "--help" ->
  (forall rest : list string,
     argparse_exit texts (basename script) w
       (run (run_tests.main texts (script :: command_line settings ++ help_flag :: rest)) w)) /\
  run (run_tests.main texts (script :: command_line settings ++ [help_flag])) w
  = (0, if String.eqb (argparse.format_help texts (run_tests.parser (basename script))) ""
        then w
        else write_stdout
               (argparse.format_help texts (run_tests.parser (basename script))) w).
Proof.
  intros Hwf Hhelp.
  assert (forall rest,
            run (run_tests.main texts (script :: command_line settings ++ help_flag :: rest)) w
            = match argparse.classify (run_tests.parser (basename script)) rest with
              | inl message =>
                  (2, after_error texts (run_tests.parser (basename script)) message w)
              | inr _ =>
                  (0, if String.eqb
                           (argparse.format_help texts (run_tests.parser (basename script))) ""
                      then w
                      else write_stdout
                             (argparse.format_help texts
                                (run_tests.parser (basename script))) w)
              end) as Hrun.
  { intros rest. rewrite run_main. cbv zeta. rewrite parse_settings by assumption.
    destruct Hhelp as [-> | ->]; cbn [argparse.classify];
      (destruct (argparse.classify _ rest); reflexivity). }
  split.
  - intros rest. rewrite Hrun. unfold argparse_exit.
    destruct (argparse.classify _ rest); eauto.
  - now rewrite Hrun.
Qed.

Lemma help_flag_ends_the_run_witness :
  Forall (fun setting => well_formed setting = true) [Separate Filter "--filter" "unit"] /\
  ("--help" = "-h" \/ "--help" = "--help") /\
  run (run_tests.main sample_texts ["run_tests.py"; "--filter"; "unit"; "--help"]) fresh
  = (0, write_stdout
          (argparse.format_help sample_texts (run_tests.parser "run_tests.py")) fresh).
Proof.
  split; [repeat constructor|]. split; [now right|].
  apply (help_flag_ends_the_run sample_texts "run_tests.py"
           [Separate Filter "--filter" "unit"] "--help" fresh).
  - repeat constructor.
  - now right.
Defined.

(** X3: run_tests.py takes no positional arguments and no options but
    its two flags and the help: after well-formed settings, an argument
    string in which the parser finds no option (any string that does not
    begin with a dash is one) keeps the status line from being printed,
    whatever follows; when nothing follows, the run is a usage error that
    names the string, with status 2. *)
Theorem stray_argument_is_rejected
    (texts : argparse.Texts) (script : string) (settings : list Setting)
    (stray : string) (w : World) :
  Forall (fun setting => well_formed setting = true) settings ->
  names_no_option stray = true ->
  (forall rest : list string,
     argparse_exit texts (basename script) w
       (run (run_tests.main texts (script :: command_line settings ++ stray :: rest)) w)) /\
  run (run_tests.main texts (script :: command_line settings ++ [stray])) w
  = (2, after_error texts (run_tests.parser (basename script))
          ("unrecognized arguments: " +:+ stray) w).
Proof.
  intros Hwf Hstray. split.
  - intros rest. rewrite run_main. cbv zeta. rewrite parse_settings by assumption.
    destruct (classify_no_option texts (basename script) stray rest Hstray)
      as [-> Hconsume].
    unfold argparse_exit.
    destruct (argparse.classify _ rest) as [|pattern]; [eauto|].
    cbn [zip zip_with]. rewrite Hconsume.
    pose proof (consume_keeps_extras texts (basename script) (zip rest pattern) 0
                  (foldl store_setting
                     (argparse.default_namespace (run_tests.parser (basename script)))
                     settings) [stray]) as Hextras.
    change (([] : list string) ++ [stray])%list with [stray].
    destruct (argparse.consume _ _ _ _ _ _) as [namespace [|extra extras]| |message];
      eauto.
    now destruct Hextras.
  - rewrite run_main. cbv zeta. rewrite parse_settings by assumption.
    destruct (classify_no_option texts (basename script) stray [] Hstray)
      as [-> Hconsume].
    cbn [argparse.classify zip zip_with]. rewrite Hconsume. reflexivity.
Qed.

Lemma stray_argument_is_rejected_witness :
  Forall (fun setting => well_formed setting = true) [Joined Verbose "--verbose" "1"] /\
  names_no_option "tests/" = true /\
  run (run_tests.main sample_texts ["run_tests.py"; "--verbose=1"; "tests/"]) fresh
  = (2, after_error sample_texts (run_tests.parser "run_tests.py")
          "unrecognized arguments: tests/" fresh).
Proof.
  split; [repeat constructor|]. split; [reflexivity|].
  apply (stray_argument_is_rejected sample_texts "run_tests.py"
           [Joined Verbose "--verbose" "1"] "tests/" fresh).
  - repeat constructor.
  - reflexivity.
Defined.

(** Strings that do not begin with a dash, unknown long and short
    options, and negative numbers are all strings without an option. *)
Lemma no_dash_names_no_option (s : string) :
  begins_with_dash s = false -> names_no_option s = true.
Proof.
  intros Hs. unfold names_no_option.
  now rewrite (not_double_dash s Hs), (parse_optional_value "" s Hs).
Qed.

Example strings_without_option :
  Forall (fun s => names_no_option s = true) ["tests"; ""; "-"; "--bogus"; "-x"; "-1"; "-k x"].
Proof. repeat constructor. Qed.

(** X4: a flag that ends the command line without a value is a usage
    error: after well-formed settings, a spelling of a flag as the last
    argument string gives status 2 and the message
    "argument --FLAG: expected one argument", and no status line. *)
Theorem flag_without_value_is_rejected
    (texts : argparse.Texts) (script : string) (settings : list Setting)
    (flag : Flag) (spelling : string) (w : World) :
  Forall (fun setting => well_formed setting = true) settings ->
  spells flag spelling = true ->
  run (run_tests.main texts (script :: command_line settings ++ [spelling])) w
  = (2, after_error texts (run_tests.parser (basename script))
          ("argument " +:+ flag_option flag +:+ ": expected one argument") w).
Proof.
  intros Hwf Hspells. rewrite run_main. cbv zeta. rewrite parse_settings by assumption.
  destruct (parse_optional_spelling (basename script) flag spelling Hspells)
    as [Hdd Hparse].
  cbn [argparse.classify]. rewrite Hdd, Hparse.
  now destruct flag.
Qed.

Lemma flag_without_value_is_rejected_witness :
  Forall (fun setting => well_formed setting = true) [Separate Filter "--filter" "unit"] /\
  spells Verbose "--verb" = true /\
  run (run_tests.main sample_texts ["run_tests.py"; "--filter"; "unit"; "--verb"]) fresh
  = (2, after_error sample_texts (run_tests.parser "run_tests.py")
          "argument --verbose: expected one argument" fresh).
Proof.
  split; [repeat constructor|]. split; [reflexivity|].
  apply (flag_without_value_is_rejected sample_texts "run_tests.py"
           [Separate Filter "--filter" "unit"] Verbose "--verb" fresh).
  - repeat constructor.
  - reflexivity.
Defined.

Lemma after_error_stdout (texts : argparse.Texts) (parser : argparse.ArgumentParser)
    (message : string) (w : World) :
  stdout (after_error texts parser message w) = stdout w.
Proof. unfold after_error. now destruct (String.eqb (argparse.format_usage texts parser) ""). Qed.

(** X5: the exit status of run_tests.py tells which stream was written.
    A run ends with status 2, nothing on standard output and the usage
    error on standard error, or with status 0 and nothing on standard
    error; in both cases the file system is as it was. *)
Theorem status_tells_the_stream
    (texts : argparse.Texts) (script : string) (args : list string) (w : World) :
  let result := run (run_tests.main texts (script :: args)) w in
  (result.1 = 2 /\ stdout result.2 = stdout w /\
   exists message : string,
     result.2 = after_error texts (run_tests.parser (basename script)) message w) \/
  (result.1 = 0 /\ stderr result.2 = stderr w /\ filesystem result.2 = filesystem w).
Proof.
  cbv zeta. rewrite run_main. cbv zeta.
  pose proof (namespace_keys texts (basename script) args) as Hkeys.
  destruct (argparse._parse_known_args texts _ args _)
    as [namespace [|extra extras]| |message].
  - destruct Hkeys as [[verbose ->] [filter ->]]. right. now repeat split.
  - left. repeat split; [apply after_error_stdout|eauto].
  - right. now destruct (String.eqb (argparse.format_help texts _) "").
  - left. repeat split; [apply after_error_stdout|eauto].
Qed.

(** ** What the printed line tells about the arguments *)

Lemma length_append (s1 s2 : string) :
  String.length (s1 +:+ s2) = (String.length s1 + String.length s2)%nat.
Proof.
  induction s1 as [|c s1 IH]; [reflexivity|].
  change (S (String.length (s1 +:+ s2)) = S (String.length s1 + String.length s2)).
  now rewrite IH.
Qed.

Lemma append_cancel_r (s1 s2 s : string) : s1 +:+ s = s2 +:+ s -> s1 = s2.
Proof.
  revert s2. induction s1 as [|c1 s1 IH]; intros [|c2 s2] Heq.
  - reflexivity.
  - apply (f_equal String.length) in Heq. rewrite !length_append in Heq.
    cbn [String.length] in Heq. lia.
  - apply (f_equal String.length) in Heq. rewrite !length_append in Heq.
    cbn [String.length] in Heq. lia.
  - change (String c1 (s1 +:+ s) = String c2 (s2 +:+ s)) in Heq.
    injection Heq as -> Heq. f_equal. now apply IH.
Qed.

(** X6: the line of deploy.py tells the target and nothing else: two
    runs of deploy.py from the same state end alike exactly when their
    targets (the first argument, or "staging" without one) are equal.  So
    different targets always give different output, and no argument gives
    the output of the argument "staging". *)
Theorem deploy_output_tells_the_target (sys_argv sys_argv' : list string) (w : World) :
  run (deploy.main sys_argv) w = run (deploy.main sys_argv') w
  <-> default "staging" (sys_argv !! 1%nat) = default "staging" (sys_argv' !! 1%nat).
Proof.
  rewrite !deploy_run. split.
  - intros Heq. injection Heq as Heq.
    apply String.app_inj in Heq. apply String.app_inj in Heq.
    now apply append_cancel_r in Heq.
  - now intros ->.
Qed.

Lemma deploy_output_tells_the_target_witness :
  default "staging" (["deploy.py"] !! 1%nat)
  = default "staging" (["deploy.py"; "staging"; "now"] !! 1%nat) /\
  run (deploy.main ["deploy.py"]) fresh
  = run (deploy.main ["deploy.py"; "staging"; "now"]) fresh.
Proof.
  split; [reflexivity|].
  apply (proj2 (deploy_output_tells_the_target ["deploy.py"]
                  ["deploy.py"; "staging"; "now"] fresh)).
  reflexivity.
Defined.

(** X7: the line of build_project.py does not tell its two arguments
    apart: the text ", output=" inside an argument reads like the
    separator, so for all strings a, b and c the different argument lists
    [a, output=b] [c] and [a] [b, output=c] give the same output. *)
Theorem build_project_line_is_ambiguous (script a b c : string) (w : World) :
  [a +:+ ", output=" +:+ b; c] <> [a; b +:+ ", output=" +:+ c] /\
  run (build_project.main [script; a +:+ ", output=" +:+ b; c]) w
  = run (build_project.main [script; a; b +:+ ", output=" +:+ c]) w.
Proof.
  split.
  - intros Heq. injection Heq as Heq _.
    apply (f_equal String.length) in Heq. rewrite !length_append in Heq.
    cbn [String.length] in Heq. lia.
  - rewrite !build_project_run. cbn [lookup list_lookup default option_rect from_option id].
    now rewrite !append_assoc.
Qed.
